(** * Patient risk scoring of ksense-take-home (src/src/lib/utils.ts)

    Shallow embedding of the scoring core: the blood-pressure parser, the
    three sub-score functions, the data-quality check, the per-patient
    classifier [checkRisk] and the batch analyser [analyzePatients].

    Modelling choices:
    - A JavaScript number is [num]: an exact rational, [NaN] or one of the two
      infinities; the literals of the code (99.5, 99.6, 101.0, ...) are their
      decimal values, and a temperature or age is taken as the decimal it
      is written as: the rounding of these to doubles is not modelled.
    - A field typed [number] in [Patient] may hold [null] or [undefined] at
      run time (the code tests for both), so it is a [jsnum].
    - The blood-pressure field is a string, or some non-string value
      ([null], [undefined], anything else), which the code tests with
      [typeof bp !== 'string'].
    - [parseInt] is only ever applied to the capture groups of
      [/(\d+)\/(\d+)/], which consist of ASCII digits: it returns the
      Number value of their decimal value, the nearest IEEE binary64 double
      (ties to even), +Infinity once that rounds to 2^1024 or more.  This
      is the correctly rounded result V8 and the other engines give;
      ECMAScript also lets an engine zero the digits after the 20th
      significant one first, which is not modelled. *)

From Stdlib Require Import ZArith QArith Lqa String Ascii List Bool Lia DecimalString.
Import ListNotations.

(** ** JavaScript values *)

Inductive num : Type :=
| Fin (q : Q)
| NaN
| PosInf
| NegInf.

Inductive jsnum : Type :=
| JUndefined
| JNull
| JNumber (n : num).

(** [ToNumber] on the values a [number] field can hold. *)
Definition ToNumber (v : jsnum) : num :=
  match v with
  | JUndefined => NaN
  | JNull => Fin 0
  | JNumber n => n
  end.

(** Abstract relational comparison [a <= b] (false when either is NaN). *)
Definition num_le (a b : num) : bool :=
  match a, b with
  | NaN, _ | _, NaN => false
  | NegInf, _ => true
  | _, PosInf => true
  | PosInf, _ => false
  | Fin _, NegInf => false
  | Fin x, Fin y => Qle_bool x y
  end.

(** Abstract relational comparison [a < b]. *)
Definition num_lt (a b : num) : bool :=
  match a, b with
  | NaN, _ | _, NaN => false
  | NegInf, NegInf => false
  | NegInf, _ => true
  | PosInf, _ => false
  | Fin _, PosInf => true
  | Fin _, NegInf => false
  | Fin x, Fin y => negb (Qle_bool y x)
  end.

(** [v <= c], [v >= c] and [v < c] for a field [v] and a numeric literal [c]. *)
Definition js_le (v : jsnum) (c : Q) : bool := num_le (ToNumber v) (Fin c).
Definition js_ge (v : jsnum) (c : Q) : bool := num_le (Fin c) (ToNumber v).
Definition js_lt (v : jsnum) (c : Q) : bool := num_lt (ToNumber v) (Fin c).

(** [v === null], [v === undefined] and [isNaN(v)]. *)
Definition is_null (v : jsnum) : bool :=
  match v with JNull => true | _ => false end.
Definition is_undefined (v : jsnum) : bool :=
  match v with JUndefined => true | _ => false end.
Definition isNaN (v : jsnum) : bool :=
  match ToNumber v with NaN => true | _ => false end.

(** The value of the [blood_pressure] field. *)
Inductive bpval : Type :=
| BpString (s : string)
| BpNull
| BpUndefined
| BpOther.

(** ** The regular expression [/(\d+)\/(\d+)/] *)

Definition is_digit (c : ascii) : bool :=
  let n := nat_of_ascii c in (48 <=? n)%nat && (n <=? 57)%nat.

(** Longest prefix of digits, and the rest of the string. *)
Fixpoint span_digits (s : string) : string * string :=
  match s with
  | EmptyString => (EmptyString, EmptyString)
  | String c s' =>
      if is_digit c then
        let (d, r) := span_digits s' in (String c d, r)
      else (EmptyString, s)
  end.

(** The match of the pattern anchored at the start of [s]: the greedy
    [(\d+)] can only succeed with the longest run of digits, since a shorter
    run is followed by a digit and not by ['/']. *)
Definition match_at (s : string) : option (string * string) :=
  let (d1, r) := span_digits s in
  match d1, r with
  | String _ _, String c r' =>
      if Ascii.eqb c "/"%char then
        let (d2, _) := span_digits r' in
        match d2 with
        | String _ _ => Some (d1, d2)
        | EmptyString => None
        end
      else None
  | _, _ => None
  end.

(** [s.match(re)] without the global flag: the leftmost match, as its two
    capture groups. *)
Fixpoint regex_match (s : string) : option (string * string) :=
  match match_at s with
  | Some m => Some m
  | None =>
      match s with
      | EmptyString => None
      | String _ s' => regex_match s'
      end
  end.

(** The mathematical integer a string of decimal digits denotes (the
    [mathInt] of [parseInt] in radix 10). *)
Fixpoint parseInt_acc (acc : Z) (s : string) : Z :=
  match s with
  | EmptyString => acc
  | String c s' => parseInt_acc (acc * 10 + (Z.of_nat (nat_of_ascii c) - 48)) s'
  end.

Definition digits_value (s : string) : Z := parseInt_acc 0 s.

(** Rounding of a non-negative integer to 53 significant bits, to nearest,
    ties to even, with an unbounded exponent. *)
Definition round_binary64 (n : Z) : Z :=
  let e := Z.log2 n in
  if (e <? 53)%Z then n
  else
    let sh := (e - 52)%Z in
    let q := (n / 2 ^ sh)%Z in
    let r := (n mod 2 ^ sh)%Z in
    let half := (2 ^ (sh - 1))%Z in
    let q' := if (half <? r)%Z || ((r =? half)%Z && Z.odd q) then (q + 1)%Z else q in
    (q' * 2 ^ sh)%Z.

(** The Number value of a non-negative integer: its rounding, or
    +Infinity when the rounding reaches 2^1024. *)
Definition number_of_int (n : Z) : num :=
  let m := round_binary64 n in
  if (2 ^ 1024 <=? m)%Z then PosInf else Fin (inject_Z m).

(** [parseInt] on a string of decimal digits. *)
Definition parseInt (s : string) : num := number_of_int (digits_value s).

(** A run of [n] zero digits. *)
Fixpoint zeros (n : nat) : string :=
  match n with
  | O => EmptyString
  | S n' => String "0"%char (zeros n')
  end.

(** ** parseBloodPressure *)

(** [{ systolic?: number; diastolic?: number }] *)
Record bp_parsed : Type := mk_bp_parsed {
  systolic : option num;
  diastolic : option num
}.

Definition bp_empty : bp_parsed := mk_bp_parsed None None.

Definition parseBloodPressure (bp : bpval) : bp_parsed :=
  match bp with
  | BpString s =>
      (* if (!bp || ...) return {}; -- the empty string is falsy *)
      if String.eqb s EmptyString then bp_empty
      else
        match regex_match s with
        | None => bp_empty
        | Some (m1, m2) => mk_bp_parsed (Some (parseInt m1)) (Some (parseInt m2))
        end
  | BpNull | BpUndefined | BpOther => bp_empty
  end.

Example parse_150_95 :
  parseBloodPressure (BpString "150/95") = mk_bp_parsed (Some (Fin 150)) (Some (Fin 95)).
Proof. reflexivity. Qed.

Example parse_embedded :
  parseBloodPressure (BpString "BP: 150/95/100 mmHg") = mk_bp_parsed (Some (Fin 150)) (Some (Fin 95)).
Proof. reflexivity. Qed.

Example parse_bad :
  parseBloodPressure (BpString "150/") = bp_empty.
Proof. reflexivity. Qed.

(** ** calculateBloodPressureRisk *)

(** The [return] statement of [calculateBloodPressureRisk] that is reached. *)
Inductive bp_return : Type :=
| RetMissing    (* Invalid/Missing Data *)
| RetNormal     (* Normal: <120/<80 *)
| RetElevated   (* Elevated: 120-129/<80 *)
| RetStage1     (* Stage 1: 130-139/80-89 *)
| RetStage2     (* Stage 2: >=140/>=90 *)
| RetFallback.  (* final [return 0] *)

Definition bp_return_of (p : bp_parsed) : bp_return :=
  match systolic p, diastolic p with
  | Some s, Some d =>
      if num_lt s (Fin 120) && num_lt d (Fin 80) then RetNormal
      else if num_le (Fin 120) s && num_le s (Fin 129) && num_lt d (Fin 80) then RetElevated
      else if (num_le (Fin 130) s && num_le s (Fin 139))
              || (num_le (Fin 80) d && num_le d (Fin 89)) then RetStage1
      else if num_le (Fin 140) s || num_le (Fin 90) d then RetStage2
      else RetFallback
  | _, _ => RetMissing
  end.

Definition bp_return_value (r : bp_return) : Z :=
  match r with
  | RetMissing => 0
  | RetNormal => 0
  | RetElevated => 1
  | RetStage1 => 2
  | RetStage2 => 3
  | RetFallback => 0
  end%Z.

Definition calculateBloodPressureRisk (bp : bpval) : Z :=
  bp_return_value (bp_return_of (parseBloodPressure bp)).

(** ** calculateTemperatureRisk and calculateAgeRisk *)

Open Scope Q_scope.

Definition calculateTemperatureRisk (temp : jsnum) : Z :=
  if is_null temp || is_undefined temp || isNaN temp then 0%Z
  else if js_le temp 99.5 then 0%Z
  else if js_ge temp 99.6 && js_lt temp 101.0 then 1%Z
  else if js_ge temp 101.0 then 2%Z
  else 0%Z.

Definition calculateAgeRisk (age : jsnum) : Z :=
  if is_null age || is_undefined age || isNaN age then 0%Z
  else if js_lt age 40 then 0%Z
  else if js_ge age 40 && js_le age 65 then 1%Z
  else if num_lt (Fin 65) (ToNumber age) then 2%Z
  else 0%Z.

Close Scope Q_scope.

(** ** Patient records (src/src/lib/types.ts) *)

Inductive gender : Type := M | F.

Record Patient : Type := mk_patient {
  patient_id : string;
  name : string;
  age : jsnum;
  gender_of : gender;
  blood_pressure : bpval;
  temperature : jsnum;
  visit_date : string;
  diagnosis : string;
  medications : string
}.

(** ** hasDataQualityIssues *)

Definition hasDataQualityIssues (patient : Patient) : bool :=
  let p := parseBloodPressure (blood_pressure patient) in
  match systolic p, diastolic p with
  | Some _, Some _ =>
      let t := temperature patient in
      if is_null t || is_undefined t || isNaN t then true
      else
        let a := age patient in
        if is_null a || is_undefined a || isNaN a then true
        else false
  | _, _ => true
  end.

(** ** checkRisk *)

Module RiskScores.
Record t : Type := mk {
  bloodPressure : Z;
  temperature : Z;
  age : Z;
  total : Z
}.
End RiskScores.

Module PatientRiskAnalysis.
Record t : Type := mk {
  patientId : string;
  riskScores : RiskScores.t;
  isHighRisk : bool;
  hasFever : bool;
  hasDataQualityIssues : bool
}.
End PatientRiskAnalysis.

Definition checkRisk (patient : Patient) : PatientRiskAnalysis.t :=
  let bloodPressureRisk := calculateBloodPressureRisk (blood_pressure patient) in
  let temperatureRisk := calculateTemperatureRisk (temperature patient) in
  let ageRisk := calculateAgeRisk (age patient) in
  let totalRisk := (bloodPressureRisk + temperatureRisk + ageRisk)%Z in
  let t := temperature patient in
  let hasFever :=
    js_ge t 99.6 && negb (is_null t) && negb (is_undefined t) && negb (isNaN t) in
  PatientRiskAnalysis.mk
    (patient_id patient)
    (RiskScores.mk bloodPressureRisk temperatureRisk ageRisk totalRisk)
    (totalRisk >=? 4)%Z
    hasFever
    (hasDataQualityIssues patient).

(** ** analyzePatients *)

Record analysis_result : Type := mk_analysis_result {
  highRiskPatients : list string;
  feverPatients : list string;
  dataQualityIssues : list string;
  analyses : list PatientRiskAnalysis.t
}.

Definition analyzePatients (patients : list Patient) : analysis_result :=
  let analyses := map checkRisk patients in
  let highRiskPatients :=
    map PatientRiskAnalysis.patientId (filter PatientRiskAnalysis.isHighRisk analyses) in
  let feverPatients :=
    map PatientRiskAnalysis.patientId (filter PatientRiskAnalysis.hasFever analyses) in
  let dataQualityIssues :=
    map PatientRiskAnalysis.patientId
      (filter PatientRiskAnalysis.hasDataQualityIssues analyses) in
  mk_analysis_result highRiskPatients feverPatients dataQualityIssues analyses.

(** Scenarios of the specification. *)

Definition sample (id : string) (bp : bpval) (t a : jsnum) : Patient :=
  mk_patient id "" a M bp t "" "" "".

Example scenario_normal :
  checkRisk (sample "P1" (BpString "118/76") (JNumber (Fin 98.2)) (JNumber (Fin 30)))
  = PatientRiskAnalysis.mk "P1" (RiskScores.mk 0 0 0 0) false false false.
Proof. reflexivity. Qed.

Example scenario_severe :
  checkRisk (sample "P2" (BpString "150/95") (JNumber (Fin 102.3)) (JNumber (Fin 70)))
  = PatientRiskAnalysis.mk "P2" (RiskScores.mk 3 2 2 7) true true false.
Proof. reflexivity. Qed.

Example scenario_missing :
  checkRisk (sample "P3" (BpString "") JNull (JNumber NaN))
  = PatientRiskAnalysis.mk "P3" (RiskScores.mk 0 0 0 0) false false true.
Proof. reflexivity. Qed.

Example scenario_border :
  checkRisk (sample "P4" (BpString "130/89") (JNumber (Fin 99.6)) (JNumber (Fin 65)))
  = PatientRiskAnalysis.mk "P4" (RiskScores.mk 2 1 1 4) true true false.
Proof. reflexivity. Qed.

(** ** Occurrences of the pattern [<digits>/<digits>] *)

Fixpoint all_digits (s : string) : bool :=
  match s with
  | EmptyString => true
  | String c s' => is_digit c && all_digits s'
  end.

(** A non-empty run of ASCII digits ([\d+]). *)
Definition digits (s : string) : Prop :=
  s <> EmptyString /\ all_digits s = true.

Definition starts_with_digit (s : string) : bool :=
  match s with
  | EmptyString => false
  | String c _ => is_digit c
  end.

(** [s] contains [d1 "/" d2] right after the prefix [pre]. *)
Definition occurrence (s pre d1 d2 post : string) : Prop :=
  s = (pre ++ d1 ++ "/" ++ d2 ++ post)%string /\ digits d1 /\ digits d2.

Definition occurs (s : string) : Prop :=
  exists pre d1 d2 post, occurrence s pre d1 d2 post.

(** *** Facts on strings and on the digit scanner *)

Lemma append_empty_r (s : string) : (s ++ "")%string = s.
Proof. induction s as [|c s IH]; simpl; [reflexivity | now rewrite IH]. Qed.

Lemma append_same_length (a b x y : string) :
  String.length a = String.length b -> (a ++ x)%string = (b ++ y)%string -> a = b /\ x = y.
Proof.
  revert b. induction a as [|c a IH]; intros [|c' b] Hl He; simpl in *;
    try discriminate; [split; auto|].
  injection Hl as Hl. injection He as -> He.
  destruct (IH b Hl He) as [-> ->]. auto.
Qed.

Lemma slash_not_digit : is_digit "/"%char = false.
Proof. reflexivity. Qed.

Lemma span_digits_app (d r : string) :
  all_digits d = true ->
  span_digits (d ++ r) = ((d ++ fst (span_digits r))%string, snd (span_digits r)).
Proof.
  induction d as [|c d IH]; simpl; intros H.
  - destruct (span_digits r); reflexivity.
  - apply andb_true_iff in H as [Hc Hd]. rewrite Hc, (IH Hd). reflexivity.
Qed.

Lemma span_digits_stop (r : string) :
  starts_with_digit r = false -> span_digits r = (EmptyString, r).
Proof. destruct r as [|c r]; simpl; [reflexivity|]. intros ->. reflexivity. Qed.

Lemma span_digits_spec (s : string) :
  s = (fst (span_digits s) ++ snd (span_digits s))%string
  /\ all_digits (fst (span_digits s)) = true
  /\ starts_with_digit (snd (span_digits s)) = false.
Proof.
  induction s as [|c s IH]; simpl; [auto|].
  destruct (is_digit c) eqn:Hc.
  - destruct (span_digits s) as [d r]; simpl in *.
    destruct IH as (-> & Hd & Hr). rewrite Hc, Hd. auto.
  - simpl. auto.
Qed.

(** The anchored matcher finds exactly the greedy occurrence at position 0. *)
Lemma match_at_occurrence (d1 d2 post : string) :
  digits d1 -> digits d2 ->
  match_at (d1 ++ "/" ++ d2 ++ post)%string
  = Some (d1, (d2 ++ fst (span_digits post))%string).
Proof.
  intros [Hn1 Hd1] [Hn2 Hd2]. unfold match_at.
  rewrite (span_digits_app d1 _ Hd1). simpl. rewrite append_empty_r.
  destruct d1 as [|c1 d1]; [congruence|].
  rewrite (span_digits_app d2 _ Hd2). simpl.
  destruct d2 as [|c2 d2]; [congruence|]. reflexivity.
Qed.

Lemma match_at_some (s d1 d2 : string) :
  match_at s = Some (d1, d2) ->
  exists post, s = (d1 ++ "/" ++ d2 ++ post)%string
    /\ digits d1 /\ digits d2 /\ starts_with_digit post = false.
Proof.
  unfold match_at.
  destruct (span_digits_spec s) as (Hs & Hd & Hr).
  destruct (span_digits s) as [x r]; simpl in *.
  destruct x as [|cx x]; [discriminate|].
  destruct r as [|c r']; [discriminate|].
  destruct (Ascii.eqb c "/"%char) eqn:Hc; [|discriminate].
  apply Ascii.eqb_eq in Hc. subst c.
  destruct (span_digits_spec r') as (Hr' & Hd' & Hp').
  destruct (span_digits r') as [y p]; simpl in *.
  destruct y as [|cy y]; [discriminate|].
  intros H. injection H as <- <-.
  exists p. rewrite Hs, Hr'. simpl.
  repeat split; try assumption; discriminate.
Qed.

Lemma match_at_occurs (s d1 d2 post : string) :
  occurrence s EmptyString d1 d2 post -> match_at s <> None.
Proof.
  intros (-> & H1 & H2). change (match_at (d1 ++ "/" ++ d2 ++ post)%string <> None).
  rewrite (match_at_occurrence d1 d2 post H1 H2).
  discriminate.
Qed.

(** [regex_match] returns the leftmost occurrence, with the longest
    second run of digits. *)
Lemma regex_match_some (s d1 d2 : string) :
  regex_match s = Some (d1, d2) ->
  exists pre post,
    occurrence s pre d1 d2 post
    /\ starts_with_digit post = false
    /\ (forall pre' d1' d2' post',
          occurrence s pre' d1' d2' post' -> String.length pre <= String.length pre').
Proof.
  induction s as [|c s IH]; simpl; intros H.
  - discriminate.
  - destruct (match_at (String c s)) as [m|] eqn:Hm.
    + injection H as ->.
      destruct (match_at_some _ _ _ Hm) as (post & Hs & Hd1 & Hd2 & Hp).
      exists EmptyString, post.
      split; [exact (conj Hs (conj Hd1 Hd2))|]. split; [exact Hp|].
      intros. simpl. lia.
    + destruct (IH H) as (pre & post & (Hs & Hd1 & Hd2) & Hp & Hleft).
      exists (String c pre), post.
      split; [split; [simpl; now rewrite Hs | exact (conj Hd1 Hd2)]|].
      split; [exact Hp|].
      intros [|c' pre'] d1' d2' post' Hocc.
      * exfalso. exact (match_at_occurs _ _ _ _ Hocc Hm).
      * destruct Hocc as (Hs' & H1 & H2). simpl in Hs'. injection Hs' as _ Hs'.
        simpl. specialize (Hleft pre' d1' d2' post' (conj Hs' (conj H1 H2))). lia.
Qed.

Lemma regex_match_none (s : string) :
  regex_match s = None -> ~ occurs s.
Proof.
  induction s as [|c s IH]; simpl; intros H (pre & d1 & d2 & post & Hocc).
  - destruct Hocc as (Hs & [Hn _] & _).
    destruct pre; [destruct d1; [congruence|]|]; discriminate.
  - destruct (match_at (String c s)) eqn:Hm; [discriminate|].
    destruct pre as [|c' pre].
    + exact (match_at_occurs _ _ _ _ Hocc Hm).
    + destruct Hocc as (Hs & H1 & H2). simpl in Hs. injection Hs as _ Hs.
      apply (IH H). exists pre, d1, d2, post. split; auto.
Qed.

Lemma regex_match_none_iff (s : string) :
  regex_match s = None <-> ~ occurs s.
Proof.
  split; [apply regex_match_none|].
  intros Hno. destruct (regex_match s) as [[d1 d2]|] eqn:Hr; [|reflexivity].
  exfalso. destruct (regex_match_some _ _ _ Hr) as (pre & post & Hocc & _).
  apply Hno. exists pre, d1, d2, post. exact Hocc.
Qed.

Lemma parseInt_acc_nonneg (acc : Z) (s : string) :
  (0 <= acc)%Z -> all_digits s = true -> (0 <= parseInt_acc acc s)%Z.
Proof.
  revert acc. induction s as [|c s IH]; simpl; intros acc Ha Hd; [assumption|].
  apply andb_true_iff in Hd as [Hc Hd]. apply IH; [|assumption].
  unfold is_digit in Hc. apply andb_true_iff in Hc as [Hc _].
  apply Nat.leb_le in Hc. lia.
Qed.

Lemma digits_value_nonneg (s : string) : all_digits s = true -> (0 <= digits_value s)%Z.
Proof. intros H. apply parseInt_acc_nonneg; [lia | exact H]. Qed.

(** *** The Number values [parseInt] returns *)

(** A non-negative integer or +Infinity. *)
Definition nat_or_inf (n : num) : Prop :=
  (exists z : Z, (0 <= z)%Z /\ n = Fin (inject_Z z)) \/ n = PosInf.

Lemma round_binary64_nonneg (n : Z) : (0 <= n)%Z -> (0 <= round_binary64 n)%Z.
Proof.
  intros H. unfold round_binary64. cbv zeta.
  destruct (Z.log2 n <? 53)%Z eqn:E; [exact H|]. apply Z.ltb_ge in E.
  assert (Hp : (0 < 2 ^ (Z.log2 n - 52))%Z) by (apply Z.pow_pos_nonneg; lia).
  assert (Hq : (0 <= n / 2 ^ (Z.log2 n - 52))%Z) by (apply Z.div_pos; lia).
  apply Z.mul_nonneg_nonneg; [|lia].
  destruct (_ || _); lia.
Qed.

Lemma number_of_int_shape (n : Z) : (0 <= n)%Z -> nat_or_inf (number_of_int n).
Proof.
  intros H. unfold nat_or_inf, number_of_int. cbv zeta.
  destruct (2 ^ 1024 <=? round_binary64 n)%Z; [right; reflexivity|].
  left. exists (round_binary64 n). split; [apply round_binary64_nonneg; exact H | reflexivity].
Qed.

Lemma number_of_int_exact (n : Z) :
  (0 <= n < 2 ^ 53)%Z -> number_of_int n = Fin (inject_Z n).
Proof.
  intros [H0 H1]. unfold number_of_int, round_binary64. cbv zeta.
  assert (E : (Z.log2 n <? 53)%Z = true).
  { apply Z.ltb_lt. destruct (Z.eq_dec n 0) as [->|Hn]; [reflexivity|].
    apply Z.log2_lt_pow2; lia. }
  rewrite E.
  assert (Hb : (2 ^ 53 < 2 ^ 1024)%Z) by (vm_compute; reflexivity).
  replace (2 ^ 1024 <=? n)%Z with false; [reflexivity|].
  symmetry. apply Z.leb_gt. lia.
Qed.

Lemma Qle_bool_Z (a b : Z) : Qle_bool (a # 1) (b # 1) = (a <=? b)%Z.
Proof. unfold Qle_bool. simpl. rewrite !Z.mul_1_r. reflexivity. Qed.

(** ** The ordered blood-pressure policy of the specification (section 4.2),
    written as a list of rules of which the first applicable one decides. *)

Fixpoint first_applicable (rules : list (bool * Z)) (default : Z) : Z :=
  match rules with
  | [] => default
  | (cond, v) :: rest => if cond then v else first_applicable rest default
  end.

Definition bp_policy (S D : option num) : Z :=
  match S, D with
  | Some s, Some d =>
      first_applicable
        [ (num_lt s (Fin 120) && num_lt d (Fin 80), 0%Z);                    (* rule 2 *)
          (num_le (Fin 120) s && num_le s (Fin 129) && num_lt d (Fin 80), 1%Z); (* rule 3 *)
          ((num_le (Fin 130) s && num_le s (Fin 139))
           || (num_le (Fin 80) d && num_le d (Fin 89)), 2%Z);                  (* rule 4 *)
          (num_le (Fin 140) s || num_le (Fin 90) d, 3%Z) ]                    (* rule 5 *)
        0%Z                                                                  (* rule 6 *)
  | _, _ => 0%Z                                                              (* rule 1 *)
  end.

Ltac split_cmp :=
  repeat match goal with
  | |- context [Z.ltb ?x ?y] => destruct (Z.ltb_spec x y)
  | |- context [Z.leb ?x ?y] => destruct (Z.leb_spec x y)
  end; simpl.

(** * Claims *)

(** C1: for every blood-pressure input, [calculateBloodPressureRisk] returns
    the value of the first applicable rule of the ordered policy (rule 1
    when systolic or diastolic is unparsed); in particular S=125, D=85 scores
    2 through the diastolic clause of rule 4, and so does "110/85". *)
Theorem C1_bp_risk_ordered_policy :
  (forall bp : bpval,
     calculateBloodPressureRisk bp
     = bp_policy (systolic (parseBloodPressure bp)) (diastolic (parseBloodPressure bp)))
  /\ bp_policy (Some (Fin 125)) (Some (Fin 85)) = 2%Z
  /\ calculateBloodPressureRisk (BpString "125/85") = 2%Z
  /\ calculateBloodPressureRisk (BpString "110/85") = 2%Z.
Proof.
  split; [|split; [reflexivity | split; reflexivity]].
  intros bp. unfold calculateBloodPressureRisk, bp_return_of, bp_policy.
  destruct (parseBloodPressure bp) as [[s|] [d|]]; cbn [systolic diastolic]; try reflexivity.
  cbn [first_applicable].
  destruct (num_lt s (Fin 120) && num_lt d (Fin 80)); [reflexivity|].
  destruct (num_le (Fin 120) s && num_le s (Fin 129) && num_lt d (Fin 80)); [reflexivity|].
  destruct ((num_le (Fin 130) s && num_le s (Fin 139))
            || (num_le (Fin 80) d && num_le d (Fin 89))); [reflexivity|].
  destruct (num_le (Fin 140) s || num_le (Fin 90) d); reflexivity.
Qed.

Lemma parse_values (bp : bpval) (S D : num) :
  parseBloodPressure bp = mk_bp_parsed (Some S) (Some D) ->
  exists d1 d2, all_digits d1 = true /\ all_digits d2 = true
    /\ S = parseInt d1 /\ D = parseInt d2.
Proof.
  destruct bp as [s| | |]; simpl; try discriminate.
  destruct (String.eqb s ""); [discriminate|].
  destruct (regex_match s) as [[m1 m2]|] eqn:Hr; [|discriminate].
  intros Hp. injection Hp as <- <-.
  destruct (regex_match_some _ _ _ Hr) as (pre & post & (_ & [_ H1] & [_ H2]) & _).
  exists m1, m2. auto.
Qed.

Lemma parse_nat_or_inf (bp : bpval) (S D : num) :
  parseBloodPressure bp = mk_bp_parsed (Some S) (Some D) -> nat_or_inf S /\ nat_or_inf D.
Proof.
  intros Hp. destruct (parse_values _ _ _ Hp) as (d1 & d2 & H1 & H2 & -> & ->).
  split; apply number_of_int_shape, digits_value_nonneg; assumption.
Qed.

(** The comparisons of [calculateBloodPressureRisk] on integers. *)
Ltac num_cmp_Z :=
  cbn [num_lt num_le negb]; unfold inject_Z; rewrite ?Qle_bool_Z; split_cmp.

Lemma bp_no_fallback (s d : num) :
  nat_or_inf s -> nat_or_inf d ->
  bp_return_of (mk_bp_parsed (Some s) (Some d)) <> RetFallback.
Proof.
  intros [(zs & _ & ->)| ->] [(zd & _ & ->)| ->]; unfold bp_return_of;
    cbn [systolic diastolic]; num_cmp_Z; try discriminate; lia.
Qed.

(** C9: the final [return 0] of [calculateBloodPressureRisk] is never
    reached once parsing succeeded: for every parsed pair of integers one of
    the four range rules applies (and also when a value is +Infinity, which
    [parseInt] returns for an overlong digit run), so no input reaches the
    fallback. *)
Theorem C9_bp_fallback_unreachable :
  (forall s d : Z,
     bp_return_of (mk_bp_parsed (Some (Fin (inject_Z s))) (Some (Fin (inject_Z d))))
     <> RetFallback)
  /\ (forall bp : bpval, bp_return_of (parseBloodPressure bp) <> RetFallback).
Proof.
  split.
  - intros s d. unfold bp_return_of. cbn [systolic diastolic].
    num_cmp_Z; try discriminate; lia.
  - intros bp. destruct (parseBloodPressure bp) as [[s|] [d|]] eqn:Hp;
      [| unfold bp_return_of; simpl; discriminate ..].
    destruct (parse_nat_or_inf _ _ _ Hp) as [Hs Hd].
    apply bp_no_fallback; assumption.
Qed.

(** A [number] field that is missing ([null], [undefined]) or not a number. *)
Definition missing_or_nan (v : jsnum) : Prop :=
  v = JNull \/ v = JUndefined \/ v = JNumber NaN.

Lemma guard_missing_or_nan (v : jsnum) :
  is_null v || is_undefined v || isNaN v = true <-> missing_or_nan v.
Proof.
  unfold missing_or_nan.
  destruct v as [| |[q| | |]]; simpl; split; intros H;
    try reflexivity; try discriminate; intuition discriminate.
Qed.

Lemma regex_match_unfold (s : string) :
  regex_match s
  = match match_at s with
    | Some m => Some m
    | None => match s with EmptyString => None | String _ s' => regex_match s' end
    end.
Proof. destruct s; reflexivity. Qed.

Lemma occurrence_same_start (d1 d2 post e1 e2 post2 : string) :
  digits d1 -> digits d2 -> digits e1 -> digits e2 ->
  starts_with_digit post = false -> starts_with_digit post2 = false ->
  (d1 ++ "/" ++ d2 ++ post)%string = (e1 ++ "/" ++ e2 ++ post2)%string ->
  d1 = e1 /\ d2 = e2.
Proof.
  intros H1 H2 H3 H4 Hp Hp2 He.
  pose proof (match_at_occurrence d1 d2 post H1 H2) as Ha.
  rewrite He, (match_at_occurrence e1 e2 post2 H3 H4) in Ha.
  rewrite (span_digits_stop _ Hp), (span_digits_stop _ Hp2) in Ha. simpl in Ha.
  rewrite !append_empty_r in Ha. injection Ha as -> ->. auto.
Qed.

Lemma parse_some_of_regex (s m1 m2 : string) :
  regex_match s = Some (m1, m2) ->
  parseBloodPressure (BpString s) = mk_bp_parsed (Some (parseInt m1)) (Some (parseInt m2)).
Proof.
  intros H. simpl. destruct s as [|c s']; [discriminate|]. simpl String.eqb.
  rewrite H. reflexivity.
Qed.

(** C2 (as the code behaves): [parseBloodPressure] matches
    [<digits>/<digits>]: on a match it returns the Number values [parseInt]
    gives for the two digit runs found in the input -- non-negative integers,
    equal to the runs' decimal values below 2^53 and rounded to the nearest
    double above, or +Infinity for a run of about 1.8e308 or more -- on any
    non-match (a string without such a run, the empty string, a non-string
    or absent value) it returns the empty object with both fields unset; it
    is total (never fails), and it only ever returns one of these two
    shapes. *)
Theorem C2_parseBloodPressure_contract :
  (forall bp : bpval,
     parseBloodPressure bp = bp_empty
     \/ exists S D, parseBloodPressure bp = mk_bp_parsed (Some S) (Some D))
  /\ (forall s : string, parseBloodPressure (BpString s) = bp_empty <-> ~ occurs s)
  /\ (forall (s : string) (S D : num),
        parseBloodPressure (BpString s) = mk_bp_parsed (Some S) (Some D) ->
        exists pre d1 d2 post, occurrence s pre d1 d2 post
          /\ S = number_of_int (digits_value d1) /\ D = number_of_int (digits_value d2)
          /\ nat_or_inf S /\ nat_or_inf D)
  /\ (forall d1 d2 : string, digits d1 -> digits d2 ->
        parseBloodPressure (BpString (d1 ++ "/" ++ d2))
        = mk_bp_parsed (Some (parseInt d1)) (Some (parseInt d2)))
  /\ (forall d1 d2 : string, digits d1 -> digits d2 ->
        (digits_value d1 < 2 ^ 53)%Z -> (digits_value d2 < 2 ^ 53)%Z ->
        parseBloodPressure (BpString (d1 ++ "/" ++ d2))
        = mk_bp_parsed (Some (Fin (inject_Z (digits_value d1))))
                       (Some (Fin (inject_Z (digits_value d2)))))
  /\ parseBloodPressure (BpString "") = bp_empty
  /\ parseBloodPressure BpNull = bp_empty
  /\ parseBloodPressure BpUndefined = bp_empty
  /\ parseBloodPressure BpOther = bp_empty.
Proof.
  assert (Hexact : forall d1 d2 : string, digits d1 -> digits d2 ->
            parseBloodPressure (BpString (d1 ++ "/" ++ d2))
            = mk_bp_parsed (Some (parseInt d1)) (Some (parseInt d2))).
  { intros d1 d2 H1 H2. apply parse_some_of_regex.
    rewrite regex_match_unfold.
    rewrite <- (append_empty_r d2).
    rewrite (match_at_occurrence d1 d2 "" H1 H2). simpl.
    rewrite !append_empty_r. reflexivity. }
  split; [|split; [|split; [|split; [|split]]]].
  - intros [s| | |]; simpl; auto.
    destruct (String.eqb s ""); auto.
    destruct (regex_match s) as [[m1 m2]|]; eauto.
  - intros s. rewrite <- regex_match_none_iff.
    destruct (regex_match s) as [[m1 m2]|] eqn:Hr.
    + rewrite (parse_some_of_regex _ _ _ Hr). split; discriminate.
    + split; [reflexivity|]. intros _. simpl.
      destruct (String.eqb s ""); [reflexivity|]. rewrite Hr. reflexivity.
  - intros s S D Hp.
    destruct (parse_nat_or_inf _ _ _ Hp) as [HS HD].
    destruct (regex_match s) as [[m1 m2]|] eqn:Hr.
    + rewrite (parse_some_of_regex _ _ _ Hr) in Hp. injection Hp as <- <-.
      destruct (regex_match_some _ _ _ Hr) as (pre & post & Hocc & _).
      exists pre, m1, m2, post.
      split; [exact Hocc|]. split; [reflexivity|]. split; [reflexivity|].
      split; assumption.
    + simpl in Hp. destruct (String.eqb s ""); [discriminate|].
      rewrite Hr in Hp. discriminate.
  - exact Hexact.
  - intros d1 d2 H1 H2 L1 L2. rewrite (Hexact d1 d2 H1 H2). unfold parseInt.
    destruct H1 as [_ H1], H2 as [_ H2].
    rewrite !number_of_int_exact; [reflexivity | split; [apply digits_value_nonneg|]; assumption ..].
  - repeat split; reflexivity.
Qed.

(** C2, as first stated (integer values), fails on an overlong reading:
    "2" followed by 308 zeros, then "/80", is a [<digits>/<digits>] input
    whose systolic value is +Infinity, not an integer. *)
Lemma C2_counterexample :
  occurs ("2" ++ zeros 308 ++ "/80")%string
  /\ parseBloodPressure (BpString ("2" ++ zeros 308 ++ "/80"))
     = mk_bp_parsed (Some PosInf) (Some (Fin 80))
  /\ (forall z : Z,
        systolic (parseBloodPressure (BpString ("2" ++ zeros 308 ++ "/80")))
        <> Some (Fin (inject_Z z))).
Proof.
  assert (Hp : parseBloodPressure (BpString ("2" ++ zeros 308 ++ "/80"))
               = mk_bp_parsed (Some PosInf) (Some (Fin 80))) by (vm_compute; reflexivity).
  split; [|split; [exact Hp|]].
  - assert (Hr : regex_match ("2" ++ zeros 308 ++ "/80")%string
                 = Some ("2" ++ zeros 308, "80")%string) by (vm_compute; reflexivity).
    destruct (regex_match_some _ _ _ Hr) as (pre & post & Hocc & _).
    exists pre, ("2" ++ zeros 308)%string, "80"%string, post. exact Hocc.
  - intros z. rewrite Hp. discriminate.
Qed.

(** C10 (as the code behaves): whenever the input contains a run of
    digits, ['/'], and a run of digits, [parseBloodPressure] succeeds with
    the values [parseInt] gives for the two runs of the leftmost such
    occurrence (its second run taken as long as possible), whatever surrounds
    it (e.g. "150/95/100"); those are the runs' decimal values below 2^53,
    rounded to the nearest double above (see C2); a record with such a
    blood pressure is then flagged by [hasDataQualityIssues] only for its
    temperature or age. *)
Theorem C10_leftmost_occurrence_parsed (s pre d1 d2 post : string) :
  occurrence s pre d1 d2 post ->
  starts_with_digit post = false ->
  (forall pre' d1' d2' post',
     occurrence s pre' d1' d2' post' -> String.length pre <= String.length pre') ->
  parseBloodPressure (BpString s) = mk_bp_parsed (Some (parseInt d1)) (Some (parseInt d2))
  /\ (forall patient : Patient, blood_pressure patient = BpString s ->
        (hasDataQualityIssues patient = true
         <-> missing_or_nan (temperature patient) \/ missing_or_nan (age patient))).
Proof.
  intros Hocc Hpost Hleft.
  assert (Hparse : parseBloodPressure (BpString s)
                   = mk_bp_parsed (Some (parseInt d1)) (Some (parseInt d2))).
  { destruct (regex_match s) as [[e1 e2]|] eqn:Hr.
    - destruct (regex_match_some _ _ _ Hr)
        as (pre2 & post2 & (Hs2 & He1 & He2) & Hp2 & Hleft2).
      pose proof (Hleft _ _ _ _ (conj Hs2 (conj He1 He2))) as L1.
      pose proof (Hleft2 _ _ _ _ Hocc) as L2.
      destruct Hocc as (Hs & Hd1 & Hd2).
      rewrite Hs in Hs2.
      destruct (append_same_length pre pre2 _ _ ltac:(lia) Hs2) as [_ Hrest].
      destruct (occurrence_same_start _ _ _ _ _ _ Hd1 Hd2 He1 He2 Hpost Hp2 Hrest)
        as [-> ->].
      apply parse_some_of_regex. exact Hr.
    - exfalso. apply (regex_match_none _ Hr). exists pre, d1, d2, post. exact Hocc. }
  split; [exact Hparse|].
  intros patient Hbp. unfold hasDataQualityIssues. rewrite Hbp, Hparse. simpl.
  rewrite <- !guard_missing_or_nan.
  destruct (is_null (temperature patient) || is_undefined (temperature patient)
            || isNaN (temperature patient)); [split; auto|].
  destruct (is_null (age patient) || is_undefined (age patient) || isNaN (age patient));
    split; intros H; try discriminate; auto; destruct H; discriminate.
Qed.

(** ** Facts on the sub-scores and on the flags *)

Ltac destruct_ifs :=
  repeat match goal with
  | |- context [if ?b then _ else _] => destruct b
  end.

Lemma bp_risk_range (bp : bpval) :
  (0 <= calculateBloodPressureRisk bp <= 3)%Z.
Proof.
  unfold calculateBloodPressureRisk.
  destruct (bp_return_of (parseBloodPressure bp)); simpl; lia.
Qed.

Lemma temperature_risk_range (temp : jsnum) :
  (0 <= calculateTemperatureRisk temp <= 2)%Z.
Proof. unfold calculateTemperatureRisk. destruct_ifs; lia. Qed.

Lemma age_risk_range (a : jsnum) :
  (0 <= calculateAgeRisk a <= 2)%Z.
Proof. unfold calculateAgeRisk. destruct_ifs; lia. Qed.

Lemma Qle_bool_false (x y : Q) : Qle_bool x y = false -> ~ (x <= y)%Q.
Proof. intros H Hle. apply Qle_bool_iff in Hle. congruence. Qed.

Ltac case_Qle :=
  repeat match goal with
  | |- context [Qle_bool ?x ?y] =>
      let E := fresh "E" in
      destruct (Qle_bool x y) eqn:E;
      [apply Qle_bool_iff in E | apply Qle_bool_false in E]
  end.

Ltac no_missing :=
  match goal with
  | H : _ \/ _ |- _ => destruct H as [H|[H|H]]; discriminate
  end.

(** ** Subsequences: the order-preservation of the output lists *)

Inductive subseq {A : Type} : list A -> list A -> Prop :=
| subseq_nil : subseq [] []
| subseq_skip (x : A) (l1 l2 : list A) : subseq l1 l2 -> subseq l1 (x :: l2)
| subseq_take (x : A) (l1 l2 : list A) : subseq l1 l2 -> subseq (x :: l1) (x :: l2).

Lemma subseq_map_filter {A B : Type} (f : A -> B) (keep : A -> bool) (l : list A) :
  subseq (map f (filter keep l)) (map f l).
Proof.
  induction l as [|x l IH]; simpl; [constructor|].
  destruct (keep x); simpl; constructor; exact IH.
Qed.

Lemma map_filter_map {A B C : Type} (g : A -> B) (keep : B -> bool) (h : B -> C) (l : list A) :
  map h (filter keep (map g l)) = map (fun x => h (g x)) (filter (fun x => keep (g x)) l).
Proof.
  induction l as [|x l IH]; simpl; [reflexivity|].
  destruct (keep (g x)); simpl; rewrite IH; reflexivity.
Qed.

Lemma in_map_filter {A B : Type} (f : A -> B) (keep : A -> bool) (l : list A) (y : B) :
  In y (map f (filter keep l)) <-> exists x, In x l /\ keep x = true /\ f x = y.
Proof.
  rewrite in_map_iff. split.
  - intros (x & Hx & Hin). apply filter_In in Hin as [Hin Hk]. eauto.
  - intros (x & Hin & Hk & Hx). exists x. split; [exact Hx|]. apply filter_In. auto.
Qed.

(** C3: [hasDataQualityIssues] (the flag [checkRisk] reports) is true exactly
    when the blood pressure does not parse into both values, or the
    temperature or the age is missing or not a number; so it is false for
    every record whose three fields are valid, whatever their values. *)
Theorem C3_data_quality_issues (patient : Patient) :
  PatientRiskAnalysis.hasDataQualityIssues (checkRisk patient) = hasDataQualityIssues patient
  /\ (hasDataQualityIssues patient = true
      <-> systolic (parseBloodPressure (blood_pressure patient)) = None
          \/ diastolic (parseBloodPressure (blood_pressure patient)) = None
          \/ missing_or_nan (temperature patient)
          \/ missing_or_nan (age patient)).
Proof.
  split; [reflexivity|].
  unfold hasDataQualityIssues.
  destruct (parseBloodPressure (blood_pressure patient)) as [[s|] [d|]]; simpl;
    [| split; auto; discriminate .. ].
  rewrite <- !guard_missing_or_nan.
  destruct (is_null (temperature patient) || is_undefined (temperature patient)
            || isNaN (temperature patient)); [split; auto|].
  destruct (is_null (age patient) || is_undefined (age patient) || isNaN (age patient));
    split; intros H; try discriminate; auto;
    destruct H as [H|[H|[H|H]]]; discriminate.
Qed.

(** C4: the [hasFever] flag of [checkRisk] is true exactly when the
    temperature is a number (not NaN) that is at least 99.6; a missing or
    non-numeric temperature never sets it, whatever the other fields. *)
Theorem C4_hasFever (patient : Patient) :
  (PatientRiskAnalysis.hasFever (checkRisk patient) = true
   <-> (exists q : Q, temperature patient = JNumber (Fin q) /\ (99.6 <= q)%Q)
       \/ temperature patient = JNumber PosInf)
  /\ (missing_or_nan (temperature patient) ->
      PatientRiskAnalysis.hasFever (checkRisk patient) = false).
Proof.
  unfold checkRisk, missing_or_nan. simpl.
  destruct (temperature patient) as [| |[q| | |]]; cbn [js_ge ToNumber num_le is_null
    is_undefined isNaN andb negb].
  - split; [split; [discriminate|] | auto].
    intros [(q & Hq & _)|Hq]; discriminate.
  - split; [split; [discriminate|] | auto].
    intros [(q & Hq & _)|Hq]; discriminate.
  - case_Qle.
    + split; [|intros [H|[H|H]]; discriminate].
      split; [intros _; left; eauto | reflexivity].
    + split; [|intros [H|[H|H]]; discriminate].
      split; [discriminate|].
      intros [(q' & Hq & Hle)|Hq]; [|discriminate].
      injection Hq as <-. contradiction.
  - split; [split; [discriminate|] | auto].
    intros [(q & Hq & _)|Hq]; discriminate.
  - split; [split; [intros _; right; reflexivity | reflexivity]|].
    intros [H|[H|H]]; discriminate.
  - split; [split; [discriminate|] | intros [H|[H|H]]; discriminate].
    intros [(q & Hq & _)|Hq]; discriminate.
Qed.

(** C5: the total of [checkRisk] is the sum of its three sub-scores, lies
    in 0..7, and the sub-scores lie in 0..3 (blood pressure), 0..2
    (temperature) and 0..2 (age). *)
Theorem C5_risk_scores_bounds (patient : Patient) :
  let r := PatientRiskAnalysis.riskScores (checkRisk patient) in
  RiskScores.total r = (RiskScores.bloodPressure r + RiskScores.temperature r + RiskScores.age r)%Z
  /\ (0 <= RiskScores.total r <= 7)%Z
  /\ (0 <= RiskScores.bloodPressure r <= 3)%Z
  /\ (0 <= RiskScores.temperature r <= 2)%Z
  /\ (0 <= RiskScores.age r <= 2)%Z.
Proof.
  simpl.
  pose proof (bp_risk_range (blood_pressure patient)).
  pose proof (temperature_risk_range (temperature patient)).
  pose proof (age_risk_range (age patient)).
  repeat split; lia.
Qed.

(** C6: the [isHighRisk] flag of [checkRisk] is true exactly when the total
    score, the sum of the three sub-scores, is at least 4. *)
Theorem C6_isHighRisk (patient : Patient) :
  let r := checkRisk patient in
  PatientRiskAnalysis.isHighRisk r = true
  <-> (RiskScores.total (PatientRiskAnalysis.riskScores r) >= 4)%Z
      /\ RiskScores.total (PatientRiskAnalysis.riskScores r)
         = (calculateBloodPressureRisk (blood_pressure patient)
            + calculateTemperatureRisk (temperature patient)
            + calculateAgeRisk (age patient))%Z.
Proof.
  simpl. rewrite Z.geb_le. split; [intros H; split; [lia | reflexivity] | intros [H _]; lia].
Qed.

(** C7: [calculateTemperatureRisk] returns 0, 1 or 2: 0 for a missing or
    non-numeric value and for a number at most 99.5, 1 for a number in
    [99.6, 101.0), 2 for a number at least 101.0 (infinities included). *)
Theorem C7_temperature_risk (temp : jsnum) :
  let r := calculateTemperatureRisk temp in
  (r = 0 \/ r = 1 \/ r = 2)%Z
  /\ (missing_or_nan temp -> r = 0%Z)
  /\ (forall q : Q, temp = JNumber (Fin q) -> (q <= 99.5)%Q -> r = 0%Z)
  /\ (forall q : Q, temp = JNumber (Fin q) -> (99.6 <= q)%Q -> (q < 101.0)%Q -> r = 1%Z)
  /\ (forall q : Q, temp = JNumber (Fin q) -> (101.0 <= q)%Q -> r = 2%Z)
  /\ (temp = JNumber NegInf -> r = 0%Z)
  /\ (temp = JNumber PosInf -> r = 2%Z).
Proof.
  intros r.
  split; [pose proof (temperature_risk_range temp); subst r; lia|].
  subst r. unfold missing_or_nan, calculateTemperatureRisk.
  destruct temp as [| |[q| | |]];
    cbn [is_null is_undefined isNaN ToNumber js_le js_ge js_lt num_le num_lt orb andb negb].
  - repeat split; intros; discriminate.
  - repeat split; intros; discriminate.
  - split; [intros [H|[H|H]]; discriminate|].
    split; [|split; [|split; [|split; intros; discriminate]]];
      intros q' Hq; injection Hq as <-; intros; case_Qle; simpl;
      first [reflexivity | exfalso; lra].
  - repeat split; intros; first [reflexivity | discriminate | no_missing].
  - repeat split; intros; first [reflexivity | discriminate | no_missing].
  - repeat split; intros; first [reflexivity | discriminate | no_missing].
Qed.

(** C8: [analyzePatients] returns the classification [checkRisk] of every
    record in input order, and the three identifier lists, each the
    identifiers of the records with the corresponding flag in input order
    (hence a subsequence of the input identifiers); an identifier is listed
    exactly when some record carrying it has the flag; and the three flags
    are independent: every combination of them is reached by some record. *)
Theorem C8_analyzePatients (patients : list Patient) :
  let res := analyzePatients patients in
  analyses res = map checkRisk patients
  /\ highRiskPatients res
     = map patient_id (filter (fun p => PatientRiskAnalysis.isHighRisk (checkRisk p)) patients)
  /\ feverPatients res
     = map patient_id (filter (fun p => PatientRiskAnalysis.hasFever (checkRisk p)) patients)
  /\ dataQualityIssues res
     = map patient_id
         (filter (fun p => PatientRiskAnalysis.hasDataQualityIssues (checkRisk p)) patients)
  /\ subseq (highRiskPatients res) (map patient_id patients)
  /\ subseq (feverPatients res) (map patient_id patients)
  /\ subseq (dataQualityIssues res) (map patient_id patients)
  /\ (forall id, In id (highRiskPatients res)
       <-> exists p, In p patients /\ PatientRiskAnalysis.isHighRisk (checkRisk p) = true
                     /\ patient_id p = id)
  /\ (forall id, In id (feverPatients res)
       <-> exists p, In p patients /\ PatientRiskAnalysis.hasFever (checkRisk p) = true
                     /\ patient_id p = id)
  /\ (forall id, In id (dataQualityIssues res)
       <-> exists p, In p patients /\ PatientRiskAnalysis.hasDataQualityIssues (checkRisk p) = true
                     /\ patient_id p = id)
  /\ (forall b1 b2 b3 : bool, exists p : Patient,
        PatientRiskAnalysis.isHighRisk (checkRisk p) = b1
        /\ PatientRiskAnalysis.hasFever (checkRisk p) = b2
        /\ PatientRiskAnalysis.hasDataQualityIssues (checkRisk p) = b3).
Proof.
  intros res.
  assert (Hh : highRiskPatients res
     = map patient_id (filter (fun p => PatientRiskAnalysis.isHighRisk (checkRisk p)) patients))
    by (unfold res; cbn [analyzePatients highRiskPatients feverPatients dataQualityIssues];
        rewrite map_filter_map; apply map_ext; reflexivity).
  assert (Hf : feverPatients res
     = map patient_id (filter (fun p => PatientRiskAnalysis.hasFever (checkRisk p)) patients))
    by (unfold res; cbn [analyzePatients highRiskPatients feverPatients dataQualityIssues];
        rewrite map_filter_map; apply map_ext; reflexivity).
  assert (Hd : dataQualityIssues res
     = map patient_id
         (filter (fun p => PatientRiskAnalysis.hasDataQualityIssues (checkRisk p)) patients))
    by (unfold res; cbn [analyzePatients highRiskPatients feverPatients dataQualityIssues];
        rewrite map_filter_map; apply map_ext; reflexivity).
  split; [reflexivity|].
  split; [exact Hh|]. split; [exact Hf|]. split; [exact Hd|].
  rewrite Hh, Hf, Hd.
  split; [apply subseq_map_filter|].
  split; [apply subseq_map_filter|].
  split; [apply subseq_map_filter|].
  split; [intros id; apply in_map_filter|].
  split; [intros id; apply in_map_filter|].
  split; [intros id; apply in_map_filter|].
  intros [|] [|] [|].
  - exists (sample "" (BpString "") (JNumber (Fin 102)) (JNumber (Fin 70))).
    repeat split.
  - exists (sample "" (BpString "150/95") (JNumber (Fin 102.3)) (JNumber (Fin 70))).
    repeat split.
  - exists (sample "" (BpString "150/95") JNull (JNumber (Fin 70))).
    repeat split.
  - exists (sample "" (BpString "150/95") (JNumber (Fin 98.2)) (JNumber (Fin 70))).
    repeat split.
  - exists (sample "" (BpString "") (JNumber (Fin 100)) JNull).
    repeat split.
  - exists (sample "" (BpString "118/76") (JNumber (Fin 100)) (JNumber (Fin 30))).
    repeat split.
  - exists (sample "" (BpString "") JNull JNull).
    repeat split.
  - exists (sample "" (BpString "118/76") (JNumber (Fin 98.2)) (JNumber (Fin 30))).
    repeat split.
Qed.

(** C10 at the input "150/95/100": the leftmost occurrence is "150/95". *)
Lemma C10_witness :
  parseBloodPressure (BpString "150/95/100") = mk_bp_parsed (Some (Fin 150)) (Some (Fin 95))
  /\ hasDataQualityIssues (sample "P5" (BpString "150/95/100") (JNumber (Fin 98.6))
                             (JNumber (Fin 50))) = false.
Proof.
  destruct (C10_leftmost_occurrence_parsed "150/95/100" "" "150" "95" "/100")
    as [Hp Hq].
  - split; [reflexivity|]. split; split; [discriminate | reflexivity | discriminate | reflexivity].
  - reflexivity.
  - intros pre' d1' d2' post' _. simpl. lia.
  - split; [rewrite Hp; vm_compute; reflexivity|].
    destruct (hasDataQualityIssues (sample "P5" (BpString "150/95/100")
                (JNumber (Fin 98.6)) (JNumber (Fin 50)))) eqn:E; [|reflexivity].
    exfalso. apply (Hq (sample "P5" (BpString "150/95/100") (JNumber (Fin 98.6))
                      (JNumber (Fin 50))) eq_refl) in E.
    destruct E as [[H|[H|H]]|[H|[H|H]]]; discriminate.
Defined.

(** C10, as first stated (the integers of the leftmost substring), fails
    for long runs: in "150/99999999999999999999 mmHg" the diastolic value is
    10^20, not the integer 99999999999999999999 the run denotes, and in
    "BP 2" followed by 308 zeros and "/80" the systolic value is +Infinity,
    which is no integer. *)
Lemma C10_counterexample :
  parseBloodPressure (BpString "150/99999999999999999999 mmHg")
  = mk_bp_parsed (Some (Fin 150)) (Some (Fin 100000000000000000000))
  /\ digits_value "99999999999999999999" = 99999999999999999999%Z
  /\ parseBloodPressure (BpString ("BP 2" ++ zeros 308 ++ "/80"))
     = mk_bp_parsed (Some PosInf) (Some (Fin 80)).
Proof. split; [|split]; vm_compute; reflexivity. Qed.

(** * The callers of the scoring core: App.tsx, UserTable.tsx, useHealthcare.ts *)

(** ** Pagination of the patient table (UserTable.tsx) *)

(** [onPageChange(Math.max(1, currentPage - 1))] of the Previous button. *)
Definition previous_page (currentPage : Z) : Z := Z.max 1 (currentPage - 1).

(** [onPageChange(Math.min(totalPages, currentPage + 1))] of the Next button. *)
Definition next_page (totalPages currentPage : Z) : Z := Z.min totalPages (currentPage + 1).

Definition previous_disabled (currentPage : Z) : bool := (currentPage =? 1)%Z.
Definition next_disabled (totalPages currentPage : Z) : bool := (currentPage =? totalPages)%Z.

(** ** Per-patient alert map (App.tsx) and status colour (UserTable.tsx) *)

Module AlertEntry.
Record t : Type := mk {
  hasHighRisk : bool;
  hasFever : bool;
  hasDataQuality : bool
}.
End AlertEntry.

(** The object [patientAlertMapping], a plain object literal: its own
    properties, and its prototype: [Object.prototype] ([None]) until an
    assignment to the key "__proto__" replaces it by the assigned entry. *)
Record alert_map : Type := mk_alert_map {
  own_entries : string -> option AlertEntry.t;
  prototype_entry : option AlertEntry.t
}.

Definition empty_alert_map : alert_map := mk_alert_map (fun _ => None) None.

(** [patientAlertMapping[k] = v]: for the key "__proto__" the assignment
    reaches the accessor [Object.prototype.__proto__], whose setter makes the
    object [v] the prototype and creates no own property; any other key
    gets an own data property. *)
Definition set_alert (m : alert_map) (k : string) (v : AlertEntry.t) : alert_map :=
  if String.eqb k "__proto__" then mk_alert_map (own_entries m) (Some v)
  else mk_alert_map (fun k' => if String.eqb k' k then Some v else own_entries m k')
                    (prototype_entry m).

(** [{ hasHighRisk: analysis.isHighRisk, hasFever: ..., hasDataQuality: ... }] *)
Definition alert_entry_of (analysis : PatientRiskAnalysis.t) : AlertEntry.t :=
  AlertEntry.mk (PatientRiskAnalysis.isHighRisk analysis)
                (PatientRiskAnalysis.hasFever analysis)
                (PatientRiskAnalysis.hasDataQualityIssues analysis).

(** [fullAnalysis.analyses.forEach((analysis) => { patientAlertMapping[...] = ... })] *)
Definition build_alert_map (analyses : list PatientRiskAnalysis.t) : alert_map :=
  fold_left
    (fun m (analysis : PatientRiskAnalysis.t) =>
       set_alert m (PatientRiskAnalysis.patientId analysis) (alert_entry_of analysis))
    analyses empty_alert_map.

(** The members a plain object inherits from [Object.prototype]. *)
Definition object_prototype_keys : list string :=
  [ "constructor"; "hasOwnProperty"; "isPrototypeOf"; "propertyIsEnumerable";
    "toLocaleString"; "toString"; "valueOf"; "__proto__";
    "__defineGetter__"; "__defineSetter__"; "__lookupGetter__"; "__lookupSetter__" ]%string.

(** The value [patientAlerts[patientId]] reads. *)
Inductive lookup_result : Type :=
| LEntry (e : AlertEntry.t)  (* an entry object *)
| LFlag (b : bool)           (* a field of the entry that is the prototype *)
| LObject                    (* a function of, or, [Object.prototype] itself *)
| LUndefined.

(** [patientAlerts[patientId]]: an own property; otherwise the getter of
    "__proto__", which returns the prototype; otherwise a field of the
    entry that is the prototype; otherwise a member of [Object.prototype]. *)
Definition lookup_alert (m : alert_map) (k : string) : lookup_result :=
  let from_object_prototype :=
    if existsb (String.eqb k) object_prototype_keys then LObject else LUndefined in
  match own_entries m k with
  | Some e => LEntry e
  | None =>
      if String.eqb k "__proto__" then
        match prototype_entry m with
        | Some e => LEntry e
        | None => LObject
        end
      else
        match prototype_entry m with
        | Some e =>
            if String.eqb k "hasHighRisk" then LFlag (AlertEntry.hasHighRisk e)
            else if String.eqb k "hasFever" then LFlag (AlertEntry.hasFever e)
            else if String.eqb k "hasDataQuality" then LFlag (AlertEntry.hasDataQuality e)
            else from_object_prototype
        | None => from_object_prototype
        end
  end.

(** Truthiness of the value read. *)
Definition truthy (r : lookup_result) : bool :=
  match r with
  | LEntry _ | LObject => true
  | LFlag b => b
  | LUndefined => false
  end.

(** [alert.f] for a boolean field [f]: [undefined], so falsy, unless the
    value is an entry object. *)
Definition field_of (r : lookup_result) (f : AlertEntry.t -> bool) : bool :=
  match r with
  | LEntry e => f e
  | _ => false
  end.

Definition getPatientStatusColor (patientAlerts : alert_map) (patientId : string) : string :=
  let alert := lookup_alert patientAlerts patientId in
  if negb (truthy alert) then "bg-gray-300"
  else if field_of alert AlertEntry.hasHighRisk then "bg-red-500"
  else if field_of alert AlertEntry.hasFever then "bg-yellow-500"
  else if field_of alert AlertEntry.hasDataQuality then "bg-blue-500"
  else "bg-green-500".

(** A high-risk record with identifier "__proto__" becomes the prototype of
    the map: its own dot is red, and the name "hasHighRisk" reads its
    [true] flag and shows green. *)
Example proto_record_colours :
  let m := build_alert_map
             (map checkRisk [sample "__proto__" (BpString "150/95") (JNumber (Fin 102.3))
                                    (JNumber (Fin 70))]) in
  own_entries m "__proto__" = None
  /\ getPatientStatusColor m "__proto__" = "bg-red-500"%string
  /\ getPatientStatusColor m "hasHighRisk" = "bg-green-500"%string
  /\ getPatientStatusColor m "hasDataQuality" = "bg-gray-300"%string
  /\ getPatientStatusColor m "toString" = "bg-green-500"%string
  /\ getPatientStatusColor m "P1" = "bg-gray-300"%string.
Proof. vm_compute. repeat split. Qed.

(** ** Alert banners (App.tsx) *)

Record AlertData : Type := mk_alert {
  alert_id : string;
  alert_type : string;
  message : string;
  severity : string
}.

Definition string_of_nat (n : nat) : string := NilEmpty.string_of_uint (Nat.to_uint n).

(** [`${n} patient${n > 1 ? "s" : ""}<suffix>`] *)
Definition count_message (n : nat) (suffix : string) : string :=
  (string_of_nat n ++ " patient" ++ (if (1 <? n)%nat then "s" else "") ++ suffix)%string.

Definition build_alerts (fullAnalysis : analysis_result) : list AlertData :=
  let h := length (highRiskPatients fullAnalysis) in
  let f := length (feverPatients fullAnalysis) in
  let d := length (dataQualityIssues fullAnalysis) in
  (if (0 <? h)%nat
   then [mk_alert "high-risk" "high-risk" (count_message h " identified as high risk") "critical"]
   else [])
  ++ (if (0 <? f)%nat
      then [mk_alert "fever" "fever" (count_message f " with elevated temperature") "warning"]
      else [])
  ++ (if (0 <? d)%nat
      then [mk_alert "data-quality" "data-quality"
              (count_message d " with data quality issues") "info"]
      else []).

(** ** Loading every page (App.tsx, [fetchData]) *)

Record Pagination : Type := mk_pagination {
  page : Z;
  limit : Z;
  total : Z;
  totalPages : Z;
  hasNext : bool;
  hasPrevious : bool
}.

Record PatientsResponse : Type := mk_response {
  data : list Patient;
  pagination : Pagination
}.

(** [for (let page = ...; page <= totalPages; page++)]: [n] iterations left,
    each pushing the data of a successful [getPatients(page, pageLimit)]. *)
Fixpoint fetch_pages (getPage : Z -> option PatientsResponse)
    (page : Z) (n : nat) (allPagesData : list Patient) : list Patient :=
  match n with
  | O => allPagesData
  | S n' =>
      let allPagesData' :=
        match getPage page with
        | Some pageResponse => allPagesData ++ data pageResponse
        | None => allPagesData
        end in
      fetch_pages getPage (page + 1) n' allPagesData'
  end.

(** [allPagesData] after the loop, from the response to the first request. *)
Definition load_all_pages (getPage : Z -> option PatientsResponse)
    (response : PatientsResponse) : list Patient :=
  fetch_pages getPage 2 (Z.to_nat (totalPages (pagination response) - 1)) (data response).

(** ** Requests with the shared loading and error state (useHealthcare.ts,
    LoadingContext.tsx).  The network is abstracted into the outcome of the
    request; the URL and headers are not modelled. *)

Inductive thrown : Type :=
| ThrownError (msg : string)   (* an [Error]: network failure, bad JSON body *)
| ThrownOther.                 (* any other thrown object, without an [error] member *)

(** A JSON value, as [response.json()] yields it; of an object only its
    [error] member is read. *)
Inductive json : Type :=
| JsonNull
| JsonBool (b : bool)
| JsonNumber (q : Q)
| JsonString (s : string)
| JsonArray
| JsonObject                        (* an object without an [error] member *)
| JsonErrorObject (error_member : json).   (* an object with one *)

(** Truthiness of a JSON value. *)
Definition json_truthy (v : json) : bool :=
  match v with
  | JsonNull => false
  | JsonBool b => b
  | JsonNumber q => negb (Qeq_bool q 0)
  | JsonString s => negb (String.eqb s "")
  | JsonArray | JsonObject | JsonErrorObject _ => true
  end.

(** The body of a non-2xx response. *)
Inductive error_body : Type :=
| BodyNotJson            (* [response.json()] rejects *)
| BodyJson (v : json).

Inductive http_outcome (A : Type) : Type :=
| HttpOk (body : A)                                 (* [response.ok], body parsed *)
| HttpNotOk (status : Z) (body : error_body)        (* [!response.ok] *)
| HttpThrown (err : thrown).                        (* [fetch] or [response.json()] threw *)

Arguments HttpOk {A} body.
Arguments HttpNotOk {A} status body.
Arguments HttpThrown {A} err.

(** The loading state of LoadingContext.tsx; [setError] stores whatever
    value it is given. *)
Record LoadingState : Type := mk_loading {
  loading : bool;
  error : option json
}.

Definition setLoading (b : bool) (st : LoadingState) : LoadingState :=
  mk_loading b (error st).
Definition setError (e : json) (st : LoadingState) : LoadingState :=
  mk_loading (loading st) (Some e).
Definition clearError (st : LoadingState) : LoadingState :=
  mk_loading (loading st) None.

Definition string_of_Z (z : Z) : string := NilEmpty.string_of_int (Z.to_int z).

(** The message of the [TypeError] raised by reading a member of [null]
    (V8's wording; other engines word it differently). *)
Definition null_member_message : string :=
  "Cannot read properties of null (reading 'error')".

(** What the [catch] block receives. *)
Inductive caught : Type :=
| CaughtObject (error_value : json)   (* [throw { error: ... }] *)
| CaughtThrown (t : thrown).

(** The non-2xx branch:
    [const errorData = await response.json().catch(() => ({}));
     throw { error: errorData.error || `HTTP error! status: ${response.status}` };]
    Reading [.error] of [null] throws a [TypeError]; of any other JSON value
    but an object with an [error] member it gives [undefined]. *)
Definition not_ok_thrown (status : Z) (body : error_body) : caught :=
  let errorData := match body with BodyNotJson => JsonObject | BodyJson v => v end in
  let status_text := JsonString ("HTTP error! status: " ++ string_of_Z status) in
  match errorData with
  | JsonNull => CaughtThrown (ThrownError null_member_message)
  | JsonErrorObject v => CaughtObject (if json_truthy v then v else status_text)
  | _ => CaughtObject status_text
  end.

(** [err.error || (err instanceof Error ? err.message : fallback)] *)
Definition caught_message (fallback : string) (err : caught) : json :=
  match err with
  | CaughtObject v => if json_truthy v then v else JsonString fallback
  | CaughtThrown (ThrownError m) => JsonString m
  | CaughtThrown ThrownOther => JsonString fallback
  end.

(** The body shared by [getPatients] and [submitAssessment]. *)
Definition request {A : Type} (fallback : string) (outcome : http_outcome A)
    (st : LoadingState) : option A * LoadingState :=
  let st := clearError (setLoading true st) in
  let (result, st) :=
    match outcome with
    | HttpOk body => (Some body, st)
    | HttpNotOk status body =>
        (None, setError (caught_message fallback (not_ok_thrown status body)) st)
    | HttpThrown t => (None, setError (caught_message fallback (CaughtThrown t)) st)
    end in
  (result, setLoading false st).   (* finally { setLoading(false); } *)

Definition getPatients (outcome : http_outcome PatientsResponse) (st : LoadingState)
    : option PatientsResponse * LoadingState :=
  request "Failed to fetch patients" outcome st.

(** The response body of the submission endpoint is not inspected beyond
    being passed back, so it is kept abstract. *)
Definition submitAssessment {R : Type} (outcome : http_outcome R) (st : LoadingState)
    : option R * LoadingState :=
  request "Failed to submit assessment" outcome st.

(** * Further properties of the code *)

(** ** Sub-scores on finite numbers *)

Lemma temperature_risk_fin (q : Q) :
  calculateTemperatureRisk (JNumber (Fin q))
  = if Qle_bool 101.0 q then 2%Z else if Qle_bool 99.6 q then 1%Z else 0%Z.
Proof.
  unfold calculateTemperatureRisk.
  cbn [is_null is_undefined isNaN ToNumber js_le js_ge js_lt num_le num_lt orb andb negb].
  case_Qle; simpl; first [reflexivity | exfalso; lra].
Qed.

Lemma age_risk_fin (q : Q) :
  calculateAgeRisk (JNumber (Fin q))
  = if Qle_bool q 65 then (if Qle_bool 40 q then 1%Z else 0%Z) else 2%Z.
Proof.
  unfold calculateAgeRisk.
  cbn [is_null is_undefined isNaN ToNumber js_le js_ge js_lt num_le num_lt orb andb negb].
  case_Qle; simpl; first [reflexivity | exfalso; lra].
Qed.

Lemma bp_missing_zero (bp : bpval) :
  systolic (parseBloodPressure bp) = None \/ diastolic (parseBloodPressure bp) = None ->
  calculateBloodPressureRisk bp = 0%Z.
Proof.
  unfold calculateBloodPressureRisk, bp_return_of.
  destruct (parseBloodPressure bp) as [[s|] [d|]]; simpl;
    intros [H|H]; first [discriminate | reflexivity].
Qed.

Lemma temperature_missing_zero (t : jsnum) :
  missing_or_nan t -> calculateTemperatureRisk t = 0%Z.
Proof. intros [->|[->| ->]]; reflexivity. Qed.

Lemma age_missing_zero (a : jsnum) :
  missing_or_nan a -> calculateAgeRisk a = 0%Z.
Proof. intros [->|[->| ->]]; reflexivity. Qed.

(** X1: [calculateAgeRisk] gives 0 for a missing or non-numeric age and for
    an age below 40, 1 for an age from 40 to 65 inclusive, and 2 above 65
    (infinities included). *)
Theorem X1_age_risk_bands (a : jsnum) :
  let r := calculateAgeRisk a in
  (missing_or_nan a -> r = 0%Z)
  /\ (forall q : Q, a = JNumber (Fin q) -> (q < 40)%Q -> r = 0%Z)
  /\ (forall q : Q, a = JNumber (Fin q) -> (40 <= q)%Q -> (q <= 65)%Q -> r = 1%Z)
  /\ (forall q : Q, a = JNumber (Fin q) -> (65 < q)%Q -> r = 2%Z)
  /\ (a = JNumber NegInf -> r = 0%Z)
  /\ (a = JNumber PosInf -> r = 2%Z).
Proof.
  intros r. subst r.
  split; [apply age_missing_zero|].
  split; [|split; [|split]];
    [ intros q -> Hq | intros q -> H1 H2 | intros q -> Hq | ];
    try (rewrite age_risk_fin; case_Qle; first [reflexivity | exfalso; lra]).
  split; intros ->; reflexivity.
Qed.

(** X2: a temperature strictly between 99.5 and 99.6 falls in the gap
    between the normal band and the low-fever band: its sub-score is 0 and
    it does not set the fever flag. *)
Theorem X2_temperature_gap (patient : Patient) (q : Q) :
  temperature patient = JNumber (Fin q) -> (99.5 < q)%Q -> (q < 99.6)%Q ->
  RiskScores.temperature (PatientRiskAnalysis.riskScores (checkRisk patient)) = 0%Z
  /\ PatientRiskAnalysis.hasFever (checkRisk patient) = false.
Proof.
  intros Ht H1 H2. unfold checkRisk.
  cbn [PatientRiskAnalysis.riskScores PatientRiskAnalysis.hasFever RiskScores.temperature].
  rewrite Ht, temperature_risk_fin.
  cbn [js_ge ToNumber num_le is_null is_undefined isNaN andb negb].
  case_Qle; split; first [reflexivity | exfalso; lra].
Qed.

(** X3: [calculateTemperatureRisk] is monotone: a larger number never gets a
    smaller sub-score. *)
Theorem X3_temperature_risk_monotone (n1 n2 : num) :
  num_le n1 n2 = true ->
  (calculateTemperatureRisk (JNumber n1) <= calculateTemperatureRisk (JNumber n2))%Z.
Proof.
  intros H.
  pose proof (temperature_risk_range (JNumber n1)).
  pose proof (temperature_risk_range (JNumber n2)).
  destruct n1 as [q1| | |], n2 as [q2| | |]; simpl in H; try discriminate;
    try (change (calculateTemperatureRisk (JNumber PosInf)) with 2%Z; lia);
    try (change (calculateTemperatureRisk (JNumber NegInf)) with 0%Z; lia).
  apply Qle_bool_iff in H.
  rewrite !temperature_risk_fin. case_Qle; first [lia | exfalso; lra].
Qed.

(** X4: [calculateAgeRisk] is monotone: an older age never gets a smaller
    sub-score. *)
Theorem X4_age_risk_monotone (n1 n2 : num) :
  num_le n1 n2 = true ->
  (calculateAgeRisk (JNumber n1) <= calculateAgeRisk (JNumber n2))%Z.
Proof.
  intros H.
  pose proof (age_risk_range (JNumber n1)).
  pose proof (age_risk_range (JNumber n2)).
  destruct n1 as [q1| | |], n2 as [q2| | |]; simpl in H; try discriminate;
    try (change (calculateAgeRisk (JNumber PosInf)) with 2%Z; lia);
    try (change (calculateAgeRisk (JNumber NegInf)) with 0%Z; lia).
  apply Qle_bool_iff in H.
  rewrite !age_risk_fin. case_Qle; first [lia | exfalso; lra].
Qed.

(** X5: the blood-pressure sub-score is 3 (stage 2) exactly when both values
    parse, one of S >= 140 or D >= 90 holds, and neither S in 130..139 nor
    D in 80..89 holds (comparisons of JS numbers, so an overlong run read as
    +Infinity counts as >= 140): the stage-1 clauses, tested first, take
    precedence, so e.g. "150/85" and "135/95" score 2. *)
Theorem X5_bp_stage2_exact (bp : bpval) :
  calculateBloodPressureRisk bp = 3%Z
  <-> exists s d : num,
        parseBloodPressure bp = mk_bp_parsed (Some s) (Some d)
        /\ (num_le (Fin 140) s || num_le (Fin 90) d) = true
        /\ (num_le (Fin 130) s && num_le s (Fin 139)) = false
        /\ (num_le (Fin 80) d && num_le d (Fin 89)) = false.
Proof.
  unfold calculateBloodPressureRisk.
  destruct (parseBloodPressure bp) as [[s|] [d|]] eqn:Hp.
  - destruct (parse_nat_or_inf _ _ _ Hp) as [Hs Hd].
    transitivity ((num_le (Fin 140) s || num_le (Fin 90) d) = true
                  /\ (num_le (Fin 130) s && num_le s (Fin 139)) = false
                  /\ (num_le (Fin 80) d && num_le d (Fin 89)) = false).
    + unfold bp_return_of. cbn [systolic diastolic].
      destruct Hs as [(zs & _ & ->)| ->], Hd as [(zd & _ & ->)| ->];
        num_cmp_Z; split; intro;
        repeat match goal with Hc : _ /\ _ |- _ => destruct Hc end;
        first [discriminate | lia | (repeat split; reflexivity)].
    + split.
      * intros H. exists s, d. split; [reflexivity | exact H].
      * intros (s' & d' & Hsd & H). injection Hsd as <- <-. exact H.
  - split; [discriminate|]. intros (s' & d' & Hsd & _). discriminate.
  - split; [discriminate|]. intros (s' & d' & Hsd & _). discriminate.
  - split; [discriminate|]. intros (s' & d' & Hsd & _). discriminate.
Qed.

(** X6: the fever flag of [checkRisk] is set exactly when the temperature
    sub-score is positive. *)
Theorem X6_fever_iff_temperature_score (patient : Patient) :
  PatientRiskAnalysis.hasFever (checkRisk patient) = true
  <-> (1 <= RiskScores.temperature (PatientRiskAnalysis.riskScores (checkRisk patient)))%Z.
Proof.
  unfold checkRisk.
  cbn [PatientRiskAnalysis.riskScores PatientRiskAnalysis.hasFever RiskScores.temperature].
  destruct (temperature patient) as [| |[q| | |]];
    try (cbn; split; intros H; first [discriminate | lia | reflexivity]).
  rewrite temperature_risk_fin.
  cbn [js_ge ToNumber num_le is_null is_undefined isNaN andb negb].
  case_Qle; split; intros; first [lia | discriminate | reflexivity | exfalso; lra].
Qed.

(** X7: a field that is missing or invalid contributes 0 to the total: an
    unparsed blood pressure, a missing or NaN temperature, a missing or NaN
    age each zero their own sub-score; hence a record with a data-quality
    issue has a total of at most 5 (and can still be high-risk). *)
Theorem X7_data_quality_total_bound (patient : Patient) :
  let r := PatientRiskAnalysis.riskScores (checkRisk patient) in
  (systolic (parseBloodPressure (blood_pressure patient)) = None
   \/ diastolic (parseBloodPressure (blood_pressure patient)) = None ->
   RiskScores.bloodPressure r = 0%Z)
  /\ (missing_or_nan (temperature patient) -> RiskScores.temperature r = 0%Z)
  /\ (missing_or_nan (age patient) -> RiskScores.age r = 0%Z)
  /\ (hasDataQualityIssues patient = true -> (RiskScores.total r <= 5)%Z).
Proof.
  intros r. subst r. cbn [checkRisk PatientRiskAnalysis.riskScores RiskScores.bloodPressure
    RiskScores.temperature RiskScores.age RiskScores.total].
  split; [apply bp_missing_zero|].
  split; [apply temperature_missing_zero|].
  split; [apply age_missing_zero|].
  pose proof (bp_risk_range (blood_pressure patient)).
  pose proof (temperature_risk_range (temperature patient)).
  pose proof (age_risk_range (age patient)).
  unfold hasDataQualityIssues.
  destruct (parseBloodPressure (blood_pressure patient)) as [[s|] [d|]] eqn:Hp; cbn;
    try (rewrite bp_missing_zero by (rewrite Hp; auto); lia).
  destruct (is_null (temperature patient) || is_undefined (temperature patient)
            || isNaN (temperature patient)) eqn:Ht.
  - apply guard_missing_or_nan, temperature_missing_zero in Ht. lia.
  - destruct (is_null (age patient) || is_undefined (age patient) || isNaN (age patient)) eqn:Ha;
      [|discriminate].
    apply guard_missing_or_nan, age_missing_zero in Ha. lia.
Qed.

(** ** The batch analyser over concatenated inputs *)

Lemma analyzePatients_app (l1 l2 : list Patient) :
  analyzePatients (l1 ++ l2)
  = mk_analysis_result
      (highRiskPatients (analyzePatients l1) ++ highRiskPatients (analyzePatients l2))
      (feverPatients (analyzePatients l1) ++ feverPatients (analyzePatients l2))
      (dataQualityIssues (analyzePatients l1) ++ dataQualityIssues (analyzePatients l2))
      (analyses (analyzePatients l1) ++ analyses (analyzePatients l2)).
Proof.
  unfold analyzePatients. cbn.
  rewrite !map_app, !filter_app, !map_app. reflexivity.
Qed.

(** X8: analysing a concatenation of record lists (as App.tsx does with the
    pages it loads) gives, for the classifications and for each of the three
    identifier lists, the concatenation of the results of the parts. *)
Theorem X8_analyzePatients_concat (l1 l2 : list Patient) :
  analyzePatients (l1 ++ l2)
  = mk_analysis_result
      (highRiskPatients (analyzePatients l1) ++ highRiskPatients (analyzePatients l2))
      (feverPatients (analyzePatients l1) ++ feverPatients (analyzePatients l2))
      (dataQualityIssues (analyzePatients l1) ++ dataQualityIssues (analyzePatients l2))
      (analyses (analyzePatients l1) ++ analyses (analyzePatients l2)).
Proof. apply analyzePatients_app. Qed.

(** ** The alert map: the last record with an identifier wins *)

Lemma build_alert_map_snoc (l : list PatientRiskAnalysis.t) (a : PatientRiskAnalysis.t) :
  build_alert_map (l ++ [a])
  = set_alert (build_alert_map l) (PatientRiskAnalysis.patientId a) (alert_entry_of a).
Proof. unfold build_alert_map. rewrite fold_left_app. reflexivity. Qed.

Lemma snoc_split {A : Type} (l : list A) (x : A) (pre : list A) (p : A) (post : list A) :
  l ++ [x] = pre ++ p :: post ->
  (post = [] /\ l = pre /\ x = p)
  \/ (exists post', post = post' ++ [x] /\ l = pre ++ p :: post').
Proof.
  destruct post as [|y post'] using rev_ind; intros H.
  - left. apply app_inj_tail in H as [-> ->]. auto.
  - right. clear IHpost'.
    rewrite app_comm_cons, app_assoc in H. apply app_inj_tail in H as [-> ->].
    exists post'. auto.
Qed.

(** Where every assignment made an own property, the entry at a key would
    be the one of the last analysis with that identifier. *)
Definition last_entry (l : list PatientRiskAnalysis.t) : string -> option AlertEntry.t :=
  fold_left
    (fun m (a : PatientRiskAnalysis.t) k' =>
       if String.eqb k' (PatientRiskAnalysis.patientId a) then Some (alert_entry_of a)
       else m k')
    l (fun _ => None).

Lemma last_entry_snoc (l : list PatientRiskAnalysis.t) (a : PatientRiskAnalysis.t) (k : string) :
  last_entry (l ++ [a]) k
  = if String.eqb k (PatientRiskAnalysis.patientId a) then Some (alert_entry_of a)
    else last_entry l k.
Proof. unfold last_entry. rewrite fold_left_app. reflexivity. Qed.

(** Own properties hold the last entry of every key but "__proto__"; the
    prototype is the last entry of "__proto__", if any. *)
Lemma build_alert_map_parts (l : list PatientRiskAnalysis.t) :
  (forall k, own_entries (build_alert_map l) k
             = if String.eqb k "__proto__" then None else last_entry l k)
  /\ prototype_entry (build_alert_map l) = last_entry l "__proto__".
Proof.
  induction l as [|a l IH] using rev_ind.
  - split; [intros k; destruct (String.eqb k "__proto__"); reflexivity | reflexivity].
  - destruct IH as [IHo IHp]. rewrite build_alert_map_snoc. unfold set_alert.
    destruct (String.eqb (PatientRiskAnalysis.patientId a) "__proto__") eqn:Ea;
      cbn [own_entries prototype_entry].
    + apply String.eqb_eq in Ea. split.
      * intros k. rewrite IHo, last_entry_snoc, Ea.
        destruct (String.eqb k "__proto__"); reflexivity.
      * rewrite last_entry_snoc, Ea. reflexivity.
    + split.
      * intros k. rewrite last_entry_snoc.
        destruct (String.eqb k "__proto__") eqn:Ek.
        -- apply String.eqb_eq in Ek. subst k. rewrite String.eqb_sym, Ea, IHo. reflexivity.
        -- rewrite IHo, Ek. reflexivity.
      * rewrite IHp, last_entry_snoc, String.eqb_sym, Ea. reflexivity.
Qed.

Lemma alert_map_none (ps : list Patient) (id : string) :
  last_entry (map checkRisk ps) id = None <-> ~ In id (map patient_id ps).
Proof.
  induction ps as [|x ps IH] using rev_ind.
  - simpl. split; auto.
  - rewrite !map_app. cbn [map]. rewrite last_entry_snoc.
    cbn [checkRisk PatientRiskAnalysis.patientId].
    rewrite in_app_iff. simpl In.
    destruct (String.eqb id (patient_id x)) eqn:E.
    + apply String.eqb_eq in E. split; [discriminate|]. intros H. exfalso. auto.
    + apply String.eqb_neq in E. rewrite IH. split; intros H; intuition.
Qed.

Lemma alert_map_some (ps : list Patient) (id : string) (e : AlertEntry.t) :
  last_entry (map checkRisk ps) id = Some e
  <-> exists pre p post, ps = pre ++ p :: post /\ patient_id p = id
        /\ ~ In id (map patient_id post) /\ e = alert_entry_of (checkRisk p).
Proof.
  revert e. induction ps as [|x ps IH] using rev_ind; intros e.
  - simpl. split; [discriminate|].
    intros (pre & p & post & H & _). destruct pre; discriminate.
  - rewrite map_app. cbn [map]. rewrite last_entry_snoc.
    cbn [checkRisk PatientRiskAnalysis.patientId].
    destruct (String.eqb id (patient_id x)) eqn:E.
    + apply String.eqb_eq in E. subst id. split.
      * intros H. injection H as <-. exists ps, x, []. auto.
      * intros (pre & p & post & Hd & Hid & Hn & He).
        destruct (snoc_split _ _ _ _ _ Hd) as [(-> & -> & ->) | (post' & -> & _)].
        -- rewrite He. reflexivity.
        -- exfalso. apply Hn. rewrite map_app, in_app_iff. simpl. auto.
    + apply String.eqb_neq in E. rewrite IH. split.
      * intros (pre & p & post & -> & Hid & Hn & He).
        exists pre, p, (post ++ [x]). rewrite <- app_assoc. split; [reflexivity|].
        split; [exact Hid|]. split; [|exact He].
        rewrite map_app, in_app_iff. simpl. intuition.
      * intros (pre & p & post & Hd & Hid & Hn & He).
        destruct (snoc_split _ _ _ _ _ Hd) as [(_ & _ & ->) | (post' & -> & Hps)].
        -- exfalso. auto.
        -- exists pre, p, post'. split; [exact Hps|]. split; [exact Hid|].
           split; [|exact He]. rewrite map_app, in_app_iff in Hn. tauto.
Qed.

(** X9: the per-patient alert map App.tsx builds from the analyses of the
    loaded records has, for every identifier but "__proto__", an own entry
    exactly when some record carries it, holding the flags of the LAST such
    record (a later record with the same identifier overwrites an earlier
    one); the identifier "__proto__" never gets an own entry: the last
    record with it becomes the map's prototype instead, and the prototype
    stays [Object.prototype] when no record has it. *)
Theorem X9_alert_map_last_wins (ps : list Patient) (id : string) :
  let m := build_alert_map (map checkRisk ps) in
  (id <> "__proto__"%string ->
     (own_entries m id = None <-> ~ In id (map patient_id ps))
     /\ (forall e : AlertEntry.t,
           own_entries m id = Some e
           <-> exists pre p post, ps = pre ++ p :: post /\ patient_id p = id
                 /\ ~ In id (map patient_id post) /\ e = alert_entry_of (checkRisk p)))
  /\ own_entries m "__proto__" = None
  /\ (prototype_entry m = None <-> ~ In "__proto__"%string (map patient_id ps))
  /\ (forall e : AlertEntry.t,
        prototype_entry m = Some e
        <-> exists pre p post, ps = pre ++ p :: post /\ patient_id p = "__proto__"%string
              /\ ~ In "__proto__"%string (map patient_id post)
              /\ e = alert_entry_of (checkRisk p)).
Proof.
  intros m. subst m.
  destruct (build_alert_map_parts (map checkRisk ps)) as [Ho Hp].
  split; [|split; [|split]].
  - intros Hid. rewrite Ho. apply String.eqb_neq in Hid. rewrite Hid.
    split; [apply alert_map_none | intros e; apply alert_map_some].
  - rewrite Ho. reflexivity.
  - rewrite Hp. apply alert_map_none.
  - intros e. rewrite Hp. apply alert_map_some.
Qed.

Lemma in_keys_iff (id : string) :
  existsb (String.eqb id) object_prototype_keys = true <-> In id object_prototype_keys.
Proof.
  rewrite existsb_exists. split.
  - intros (k & Hin & Hk). apply String.eqb_eq in Hk. subst k. exact Hin.
  - intros Hin. exists id. split; [exact Hin | apply String.eqb_refl].
Qed.

(** [String.eqb id k = false] from [id <> k] given as a non-membership. *)
Ltac eqb_false id k :=
  let E := fresh in
  destruct (String.eqb id k) eqn:E;
  [apply String.eqb_eq in E; subst id; exfalso; simpl in *; intuition discriminate|].

(** X10: the status dot UserTable.tsx draws for an identifier: for a loaded
    identifier, "__proto__" included, it follows the flags of the last
    record with it: red if high-risk, else yellow if feverish, else blue on
    a data-quality issue, else green.  For an identifier of no loaded record
    it is green when the identifier names a member of [Object.prototype]
    (e.g. "toString", "__proto__"), and otherwise grey, with one exception:
    once a record with identifier "__proto__" is loaded, the names
    "hasHighRisk", "hasFever" and "hasDataQuality" read that record's flags
    through the prototype, and show green when the flag is set. *)
Theorem X10_status_color (ps : list Patient) (id : string) :
  let c := getPatientStatusColor (build_alert_map (map checkRisk ps)) id in
  (forall pre p post, ps = pre ++ p :: post -> patient_id p = id ->
     ~ In id (map patient_id post) ->
     let a := checkRisk p in
     c = (if PatientRiskAnalysis.isHighRisk a then "bg-red-500"
          else if PatientRiskAnalysis.hasFever a then "bg-yellow-500"
          else if PatientRiskAnalysis.hasDataQualityIssues a then "bg-blue-500"
          else "bg-green-500")%string)
  /\ (~ In id (map patient_id ps) -> In id object_prototype_keys -> c = "bg-green-500"%string)
  /\ (~ In id (map patient_id ps) -> ~ In id object_prototype_keys ->
      ~ In id ["hasHighRisk"; "hasFever"; "hasDataQuality"]%string -> c = "bg-gray-300"%string)
  /\ (~ In id (map patient_id ps) -> ~ In id object_prototype_keys ->
      ~ In "__proto__"%string (map patient_id ps) -> c = "bg-gray-300"%string)
  /\ (forall pre p post, ps = pre ++ p :: post -> patient_id p = "__proto__"%string ->
        ~ In "__proto__"%string (map patient_id post) -> ~ In id (map patient_id ps) ->
        let a := checkRisk p in
        (id = "hasHighRisk"%string ->
           c = (if PatientRiskAnalysis.isHighRisk a then "bg-green-500" else "bg-gray-300")%string)
        /\ (id = "hasFever"%string ->
           c = (if PatientRiskAnalysis.hasFever a then "bg-green-500" else "bg-gray-300")%string)
        /\ (id = "hasDataQuality"%string ->
           c = (if PatientRiskAnalysis.hasDataQualityIssues a
                then "bg-green-500" else "bg-gray-300")%string)).
Proof.
  intros c. subst c. unfold getPatientStatusColor, lookup_alert. cbv zeta.
  destruct (build_alert_map_parts (map checkRisk ps)) as [Ho Hp].
  rewrite Ho, Hp.
  split; [|split; [|split; [|split]]].
  - intros pre p post Hd Hid Hn.
    assert (Hs : last_entry (map checkRisk ps) id = Some (alert_entry_of (checkRisk p)))
      by (apply alert_map_some; exists pre, p, post; auto).
    destruct (String.eqb id "__proto__") eqn:E.
    + apply String.eqb_eq in E. rewrite E in Hs. rewrite Hs. reflexivity.
    + rewrite Hs. reflexivity.
  - intros Hn Hk. pose proof (proj2 (alert_map_none ps id) Hn) as Hnone.
    destruct (String.eqb id "__proto__") eqn:E.
    + apply String.eqb_eq in E. subst id. rewrite Hnone. reflexivity.
    + rewrite Hnone. apply in_keys_iff in Hk. rewrite Hk.
      destruct (last_entry (map checkRisk ps) "__proto__"); [|reflexivity].
      eqb_false id "hasHighRisk"%string. eqb_false id "hasFever"%string.
      eqb_false id "hasDataQuality"%string. reflexivity.
  - intros Hn Hk Hf. pose proof (proj2 (alert_map_none ps id) Hn) as Hnone.
    eqb_false id "__proto__"%string. rewrite Hnone.
    destruct (existsb (String.eqb id) object_prototype_keys) eqn:Ek;
      [exfalso; apply Hk, in_keys_iff, Ek|].
    destruct (last_entry (map checkRisk ps) "__proto__"); [|reflexivity].
    eqb_false id "hasHighRisk"%string. eqb_false id "hasFever"%string.
    eqb_false id "hasDataQuality"%string. reflexivity.
  - intros Hn Hk Hq. pose proof (proj2 (alert_map_none ps id) Hn) as Hnone.
    eqb_false id "__proto__"%string. rewrite Hnone.
    rewrite (proj2 (alert_map_none ps "__proto__") Hq).
    destruct (existsb (String.eqb id) object_prototype_keys) eqn:Ek;
      [exfalso; apply Hk, in_keys_iff, Ek|]. reflexivity.
  - intros pre p post Hd Hid Hpost Hn.
    pose proof (proj2 (alert_map_none ps id) Hn) as Hnone.
    assert (Hs : last_entry (map checkRisk ps) "__proto__" = Some (alert_entry_of (checkRisk p)))
      by (apply alert_map_some; exists pre, p, post; auto).
    rewrite Hs.
    destruct (checkRisk p) as [pid rs hr fv dq].
    split; [|split]; intros ->; rewrite Hnone; cbn;
      [destruct hr | destruct fv | destruct dq]; reflexivity.
Qed.

(** ** Alert banners *)

Lemma length_flagged_pos {A B C : Type} (f : B -> C) (keep : B -> bool) (g : A -> B) (l : list A) :
  (0 < length (map f (filter keep (map g l))))%nat
  <-> exists x, In x l /\ keep (g x) = true.
Proof.
  rewrite length_map. induction l as [|x l IH]; simpl.
  - split; [lia | intros (y & [] & _)].
  - destruct (keep (g x)) eqn:E; simpl.
    + split; [intros _; eauto | lia].
    + rewrite IH. split.
      * intros (y & Hy & Hk). eauto.
      * intros (y & [->|Hy] & Hk); [congruence | eauto].
Qed.

Lemma nat_ltb_0 (n : nat) : (0 <? n)%nat = true <-> (0 < n)%nat.
Proof. apply Nat.ltb_lt. Qed.

Lemma alerts_shape (bh bf bd : bool) (mh mf md : string) :
  let al := ((if bh then [mk_alert "high-risk" "high-risk" mh "critical"] else [])
            ++ (if bf then [mk_alert "fever" "fever" mf "warning"] else [])
            ++ (if bd then [mk_alert "data-quality" "data-quality" md "info"] else [])) in
  (In "high-risk"%string (map alert_id al) <-> bh = true)
  /\ (In "fever"%string (map alert_id al) <-> bf = true)
  /\ (In "data-quality"%string (map alert_id al) <-> bd = true)
  /\ subseq (map alert_id al) ["high-risk"; "fever"; "data-quality"]%string
  /\ (forall a, In a al ->
        alert_type a = alert_id a
        /\ ((alert_id a = "high-risk" /\ severity a = "critical")
            \/ (alert_id a = "fever" /\ severity a = "warning")
            \/ (alert_id a = "data-quality" /\ severity a = "info"))%string).
Proof.
  intros al. subst al.
  destruct bh, bf, bd; cbn [app map In alert_id alert_type severity];
    (split; [|split; [|split; [|split]]]);
    try solve [split; intros H; [ | first [left; reflexivity | right; left; reflexivity
                                     | right; right; left; reflexivity | discriminate]];
         repeat destruct H as [H|H]; first [reflexivity | discriminate | contradiction]];
    try solve [repeat first [apply subseq_take | apply subseq_skip | apply subseq_nil]];
    intros a Ha; decompose [or] Ha; try contradiction;
    match goal with H : _ = ?v |- _ => subst v end; cbn;
    (split; [reflexivity | first [left; split; reflexivity
                                 | right; left; split; reflexivity
                                 | right; right; split; reflexivity]]).
Qed.

(** X11: App.tsx raises the high-risk, fever and data-quality banners, in
    this order and each at most once, exactly for the categories that some
    loaded record falls in; each banner has the type of its identifier and
    the severity critical, warning and info respectively. *)
Theorem X11_alert_banners (patients : list Patient) :
  let al := build_alerts (analyzePatients patients) in
  (In "high-risk"%string (map alert_id al)
     <-> exists p, In p patients /\ PatientRiskAnalysis.isHighRisk (checkRisk p) = true)
  /\ (In "fever"%string (map alert_id al)
     <-> exists p, In p patients /\ PatientRiskAnalysis.hasFever (checkRisk p) = true)
  /\ (In "data-quality"%string (map alert_id al)
     <-> exists p, In p patients
                   /\ PatientRiskAnalysis.hasDataQualityIssues (checkRisk p) = true)
  /\ subseq (map alert_id al) ["high-risk"; "fever"; "data-quality"]%string
  /\ (forall a, In a al ->
        alert_type a = alert_id a
        /\ ((alert_id a = "high-risk" /\ severity a = "critical")
            \/ (alert_id a = "fever" /\ severity a = "warning")
            \/ (alert_id a = "data-quality" /\ severity a = "info"))%string).
Proof.
  intros al. subst al. unfold build_alerts. cbv zeta.
  set (h := length (highRiskPatients (analyzePatients patients))).
  set (f := length (feverPatients (analyzePatients patients))).
  set (d := length (dataQualityIssues (analyzePatients patients))).
  destruct (alerts_shape (0 <? h)%nat (0 <? f)%nat (0 <? d)%nat
              (count_message h " identified as high risk")
              (count_message f " with elevated temperature")
              (count_message d " with data quality issues"))
    as (A & B & C & D & E).
  split; [rewrite A, nat_ltb_0;
          exact (length_flagged_pos PatientRiskAnalysis.patientId
                   PatientRiskAnalysis.isHighRisk checkRisk patients)|].
  split; [rewrite B, nat_ltb_0;
          exact (length_flagged_pos PatientRiskAnalysis.patientId
                   PatientRiskAnalysis.hasFever checkRisk patients)|].
  split; [rewrite C, nat_ltb_0;
          exact (length_flagged_pos PatientRiskAnalysis.patientId
                   PatientRiskAnalysis.hasDataQualityIssues checkRisk patients)|].
  split; [exact D | exact E].
Qed.

(** ** Pagination *)

(** X12: while the current page lies in 1..totalPages, the Previous and Next
    buttons keep it there, and each button is disabled exactly when clicking
    it would leave the page unchanged. *)
Theorem X12_pagination_in_range (totalPages currentPage : Z) :
  (1 <= currentPage <= totalPages)%Z ->
  (1 <= previous_page currentPage <= totalPages)%Z
  /\ (1 <= next_page totalPages currentPage <= totalPages)%Z
  /\ (previous_disabled currentPage = true <-> previous_page currentPage = currentPage)
  /\ (next_disabled totalPages currentPage = true
      <-> next_page totalPages currentPage = currentPage).
Proof.
  intros H. unfold previous_page, next_page, previous_disabled, next_disabled.
  rewrite !Z.eqb_eq. repeat split; lia.
Qed.

(** X13: when the current page exceeds [totalPages] (e.g. page 1 of an
    empty listing with 0 pages), the Next button is enabled and moves to page
    [totalPages], below the current page. *)
Theorem X13_pagination_next_past_end (totalPages currentPage : Z) :
  (totalPages < currentPage)%Z ->
  next_disabled totalPages currentPage = false
  /\ next_page totalPages currentPage = totalPages
  /\ (next_page totalPages currentPage < currentPage)%Z.
Proof.
  intros H. unfold next_page, next_disabled.
  split; [apply Z.eqb_neq; lia | split; lia].
Qed.

(** ** Loading all pages *)

(** The records a later page contributes: its data, or nothing when the
    request failed. *)
Definition page_data (getPage : Z -> option PatientsResponse) (p : Z) : list Patient :=
  match getPage p with
  | Some r => data r
  | None => []
  end.

Lemma fetch_pages_spec (getPage : Z -> option PatientsResponse) (k n : nat) (acc : list Patient) :
  fetch_pages getPage (Z.of_nat k) n acc
  = acc ++ flat_map (page_data getPage) (map Z.of_nat (seq k n)).
Proof.
  revert k acc. induction n as [|n IH]; intros k acc; simpl.
  - rewrite app_nil_r. reflexivity.
  - replace (Z.of_nat k + 1)%Z with (Z.of_nat (S k)) by lia.
    rewrite IH. unfold page_data.
    destruct (getPage (Z.of_nat k)); rewrite ?app_assoc, ?app_nil_r; reflexivity.
Qed.

(** X14: after the first response, App.tsx requests pages 2..totalPages in
    order and appends the records of each page that loaded: the loaded list
    is the first page's records followed by those of every later page that
    loaded, in page order, a failed page being skipped; with at most one
    page it is the first page's records. *)
Theorem X14_load_all_pages (getPage : Z -> option PatientsResponse)
    (response : PatientsResponse) :
  load_all_pages getPage response
  = data response
    ++ flat_map (page_data getPage)
         (map Z.of_nat (seq 2 (Z.to_nat (totalPages (pagination response) - 1))))
  /\ ((totalPages (pagination response) <= 1)%Z -> load_all_pages getPage response = data response).
Proof.
  unfold load_all_pages.
  rewrite <- (fetch_pages_spec getPage 2). split; [reflexivity|].
  intros H. replace (Z.to_nat (totalPages (pagination response) - 1)) with 0%nat by lia.
  reflexivity.
Qed.

(** ** Requests *)

(** X15: [getPatients] and [submitAssessment] (both the shared [request]
    with their own fallback text) always end with [loading] false.  On a
    2xx response they return the body and leave the error cleared.  Every
    failure returns null and records an error: on a non-2xx response the
    body's [error] member when it is truthy (any JSON value, not only a
    string), the TypeError message when the body is the JSON [null], and
    "HTTP error! status: <status>" for every other body (not JSON, a JSON
    primitive or array, an object without a truthy [error]); when the request
    throws an [Error] its message, and for any other thrown object the
    fallback text. *)
Theorem X15_request_loading_and_errors (A : Type) (fallback : string) (st : LoadingState) :
  let status_text status := JsonString ("HTTP error! status: " ++ string_of_Z status) in
  (forall outcome : http_outcome A, loading (snd (request fallback outcome st)) = false)
  /\ (forall body : A, @request A fallback (HttpOk body) st = (Some body, mk_loading false None))
  /\ (forall status v, json_truthy v = true ->
        @request A fallback (HttpNotOk status (BodyJson (JsonErrorObject v))) st
        = (None, mk_loading false (Some v)))
  /\ (forall status,
        @request A fallback (HttpNotOk status (BodyJson JsonNull)) st
        = (None, mk_loading false (Some (JsonString null_member_message))))
  /\ (forall status body,
        body = BodyNotJson
        \/ (exists v, body = BodyJson (JsonErrorObject v) /\ json_truthy v = false)
        \/ body = BodyJson JsonObject
        \/ (exists b, body = BodyJson (JsonBool b))
        \/ (exists q, body = BodyJson (JsonNumber q))
        \/ (exists s, body = BodyJson (JsonString s))
        \/ body = BodyJson JsonArray ->
        @request A fallback (HttpNotOk status body) st
        = (None, mk_loading false (Some (status_text status))))
  /\ (forall msg, @request A fallback (HttpThrown (ThrownError msg)) st
                  = (None, mk_loading false (Some (JsonString msg))))
  /\ @request A fallback (HttpThrown ThrownOther) st
     = (None, mk_loading false (Some (JsonString fallback)))
  /\ getPatients = request "Failed to fetch patients"
  /\ (forall R : Type, @submitAssessment R = request "Failed to submit assessment").
Proof.
  intros status_text.
  split; [|split; [|split; [|split; [|split; [|split; [|split; [|split]]]]]]].
  - intros [body|status body|[msg|]]; [reflexivity| |reflexivity|reflexivity].
    unfold request. destruct (not_ok_thrown status body); reflexivity.
  - intros body. reflexivity.
  - intros status v Hv. unfold request, not_ok_thrown, caught_message.
    cbv zeta. rewrite Hv, Hv. reflexivity.
  - intros status. reflexivity.
  - intros status body Hb.
    assert (Ht : json_truthy (status_text status) = true) by reflexivity.
    unfold request, not_ok_thrown, caught_message. cbv zeta.
    fold (status_text status).
    decompose [or ex and] Hb; subst body; try rewrite H1;
      cbv zeta; rewrite ?Ht; reflexivity.
  - intros msg. reflexivity.
  - reflexivity.
  - reflexivity.
  - intros R. reflexivity.
Qed.

(** ** Instances of the properties with preconditions *)

Lemma X2_witness :
  let p := sample "W1" (BpString "120/70") (JNumber (Fin 99.55)) (JNumber (Fin 30)) in
  RiskScores.temperature (PatientRiskAnalysis.riskScores (checkRisk p)) = 0%Z
  /\ PatientRiskAnalysis.hasFever (checkRisk p) = false.
Proof.
  intros p.
  apply (X2_temperature_gap p 99.55); [reflexivity | vm_compute; reflexivity | vm_compute; reflexivity].
Defined.

Lemma X3_witness :
  (calculateTemperatureRisk (JNumber (Fin 99.7)) <= calculateTemperatureRisk (JNumber (Fin 101)))%Z.
Proof. apply (X3_temperature_risk_monotone (Fin 99.7) (Fin 101)). vm_compute. reflexivity. Defined.

Lemma X4_witness :
  (calculateAgeRisk (JNumber (Fin 40)) <= calculateAgeRisk (JNumber PosInf))%Z.
Proof. apply (X4_age_risk_monotone (Fin 40) PosInf). vm_compute. reflexivity. Defined.

Lemma X12_witness :
  (1 <= previous_page 3 <= 5)%Z
  /\ (1 <= next_page 5 3 <= 5)%Z
  /\ (previous_disabled 3 = true <-> previous_page 3 = 3%Z)
  /\ (next_disabled 5 3 = true <-> next_page 5 3 = 3%Z).
Proof. apply (X12_pagination_in_range 5 3). lia. Defined.

Lemma X13_witness :
  next_disabled 0 1 = false /\ next_page 0 1 = 0%Z /\ (next_page 0 1 < 1)%Z.
Proof. apply (X13_pagination_next_past_end 0 1). lia. Defined.
